(** * server.js: the in-memory relay between trackers and the dashboard

    A shallow embedding of [src/server.js].  The two process-wide tables
    [deviceData] and [commands] are plain JavaScript objects created by the
    literal [{}]; the four route handlers read and write them with computed
    member access ([deviceData[deviceId]]).  The embedding keeps what that
    access does in JavaScript: own properties first, then the prototype chain
    down to [Object.prototype], and the [__proto__] accessor.

    Conventions.
    - [Date.now()] is an input of every handler run (an integer, in ms).
    - A response is the status code the handler sets and the JavaScript
      value it hands to [res.send] / [res.json]; what Express makes of them
      afterwards (the JSON text, a 304 for a conditional request) is not
      modelled.  When a handler throws, it has handed over nothing and the
      error handler of Express answers 500.
    - [console.log] / [console.error] write to the process log only and are
      left out.
    - [express.json()] (strict mode, its default) turns a JSON request into
      an object or an array.  When it parsed nothing, [req.body] is the empty
      object under Express 4 and [undefined] under Express 5; the repository
      pins no version, so a handler may find either. *)

From Stdlib Require Import ZArith QArith.
From stdpp Require Import base option list strings gmap fin_maps pretty.

Local Set Warnings "-register-all".
Local Open Scope string_scope.
Local Open Scope Z_scope.

(** ** Values *)

(** What [JSON.parse] can produce.  Objects are finite maps from property
    names to values ([JSON.parse] keeps the last of several equal keys).
    A number is the rational value of the double; the handlers store
    numbers, return them and test them against zero, nothing else (a
    literal that overflows to [Infinity] behaves there as any non-zero
    number). *)
Inductive json : Type :=
  | JNull
  | JBool (b : bool)
  | JNum (q : Q)
  | JStr (s : string)
  | JArr (l : list json)
  | JObj (o : gmap string json).

(** An object literal of the program: its own properties.  Every such
    object has [Object.prototype] as prototype. *)
Abbreviation obj := (gmap string json).

(** A value met at run time by the handlers: JSON data, [undefined], one of
    the functions that live on [Object.prototype], or [Object.prototype]
    itself. *)
Inductive value : Type :=
  | VUndefined
  | VJson (j : json)
  | VBuiltin (name : string)
  | VObjectPrototype.

(** [typeof v] *)
Definition typeof (v : value) : string :=
  match v with
  | VUndefined => "undefined"
  | VJson JNull => "object"
  | VJson (JBool _) => "boolean"
  | VJson (JNum _) => "number"
  | VJson (JStr _) => "string"
  | VJson (JArr _) => "object"
  | VJson (JObj _) => "object"
  | VBuiltin _ => "function"
  | VObjectPrototype => "object"
  end.

(** ToBoolean: what [!v], [v || d] and [if (v)] look at.  Numbers coming
    from JSON are never NaN. *)
Definition truthy (v : value) : bool :=
  match v with
  | VUndefined => false
  | VJson JNull => false
  | VJson (JBool b) => b
  | VJson (JNum q) => negb (Qeq_bool q 0)
  | VJson (JStr s) => negb (String.eqb s "")
  | VJson (JArr _) => true
  | VJson (JObj _) => true
  | VBuiltin _ => true
  | VObjectPrototype => true
  end.

(** The time stamp [Date.now()] as a JavaScript number. *)
Definition jtime (t : Z) : json := JNum (inject_Z t).

(** ** Property access *)

(** The data properties of [Object.prototype] (all of them functions,
    writable and not enumerable).  [__proto__] is the one accessor
    property and is treated apart. *)
Definition object_prototype_methods : list string :=
  [ "constructor"; "__defineGetter__"; "__defineSetter__"; "hasOwnProperty";
    "__lookupGetter__"; "__lookupSetter__"; "isPrototypeOf";
    "propertyIsEnumerable"; "toString"; "valueOf"; "toLocaleString" ].

Definition is_object_prototype_method (k : string) : bool :=
  bool_decide (k ∈ object_prototype_methods).

(** [v.k] for a field name [k] that no built-in prototype defines: the
    names the handlers read with a dot ([latitude], [longitude], [rssi],
    [buzzer]) and the other names of the records ([timestamp], [message],
    ...).  The lookup succeeds only on an own property of an object; on a
    primitive, an array, a function or [Object.prototype] it gives
    [undefined].  On [null] and [undefined] themselves the read throws:
    see [dot]. *)
Definition field (v : value) (k : string) : value :=
  match v with
  | VJson (JObj o) =>
      match o !! k with
      | Some j => VJson j
      | None => VUndefined
      end
  | _ => VUndefined
  end.

(** [v.k] as the program evaluates it: reading a property of [undefined]
    or [null] throws a TypeError ([None]); on every other value it is
    [field v k]. *)
Definition dot (v : value) (k : string) : option value :=
  match v with
  | VUndefined => None
  | VJson JNull => None
  | _ => Some (field v k)
  end.

(** ** The two tables *)

(** A table is the object [{}] the module creates, as it evolves: its own
    properties, each holding a record written by a handler, and its
    [[Prototype]] slot, which is [Object.prototype] ([None]) until an
    assignment to the key [__proto__] replaces it by a record. *)
Record table : Type := Table {
  own : gmap string obj;
  proto : option obj
}.

Definition empty_table : table := Table ∅ None.

(** [t[k]]: OrdinaryGet.  An own property wins; else the prototype record,
    if any, is asked for an own property; else [Object.prototype] answers,
    with one of its methods, with the table's prototype for [__proto__]
    (the getter is run on the table), or with [undefined]. *)
Definition table_get (t : table) (k : string) : value :=
  match own t !! k with
  | Some r => VJson (JObj r)
  | None =>
      match proto t with
      | Some p =>
          match p !! k with
          | Some j => VJson j
          | None =>
              if String.eqb k "__proto__" then VJson (JObj p)
              else if is_object_prototype_method k then VBuiltin k
              else VUndefined
          end
      | None =>
          if String.eqb k "__proto__" then VObjectPrototype
          else if is_object_prototype_method k then VBuiltin k
          else VUndefined
      end
  end.

(** Does the assignment [t[k] = r] end in the [__proto__] setter of
    [Object.prototype]?  Only when the key is [__proto__] and neither the
    table nor its prototype record has a data property of that name. *)
Definition reaches_proto_setter (t : table) (k : string) : bool :=
  String.eqb k "__proto__"
  && bool_decide (own t !! k = None)
  && match proto t with
     | Some p => bool_decide (p !! k = None)
     | None => true
     end.

(** [t[k] = r] for an object [r]: OrdinarySet.  A data property found on
    the table is overwritten; one found further up the chain (or none at
    all) makes a new own property of the table; the [__proto__] accessor
    replaces the table's prototype. *)
Definition table_set (t : table) (k : string) (r : obj) : table :=
  if reaches_proto_setter t k
  then Table (own t) (Some r)
  else Table (<[k := r]> (own t)) (proto t).

(** ** State, requests, responses *)

Record state : Type := State {
  deviceData : table;
  commands : table
}.

(** [req.body] as the handler finds it: the object or the array that
    [express.json()] parsed, or [undefined] when it parsed nothing and the
    framework left the property unset (Express 5). *)
Inductive body : Type :=
  | BObject (o : obj)
  | BArray (l : list json)
  | BUndefined.

(** The request body seen as a value. *)
Definition body_value (d : body) : value :=
  match d with
  | BObject o => VJson (JObj o)
  | BArray l => VJson (JArr l)
  | BUndefined => VUndefined
  end.

(** [{...data}]: the own enumerable properties of [data]; for an array,
    its elements under their indices; nothing for [undefined]. *)
Definition spread (d : body) : obj :=
  match d with
  | BObject o => o
  | BArray l => list_to_map (imap (λ i j, (pretty (N.of_nat i), j)) l)
  | BUndefined => ∅
  end.

Inductive request : Type :=
  | PostData (deviceId : string) (data : body)
  | GetData (deviceId : string)
  | PostCommand (deviceId : string)
  | GetCommand (deviceId : string).

Record response : Type := Response {
  status : Z;
  sent : value
}.

(** The object with the properties [ps], in source order, a later one
    overriding an earlier one of the same name: an object literal of the
    program, or what [JSON.parse] makes of an object in a request. *)
Definition object_literal (ps : list (string * json)) : obj :=
  fold_left (λ o p, <[p.1 := p.2]> o) ps ∅.

Definition message (text : string) : value :=
  VJson (JObj (object_literal [("message", JStr text)])).

(** ** The source functions *)

(** [isValidGpsData(data)], lines 27-33: the three tests, left to right,
    the later ones evaluated only when the earlier ones hold.  [None] is
    the TypeError that [data.latitude] throws when [data] is [undefined]. *)
Definition isValidGpsData (data : body) : option bool :=
  latitude ← dot (body_value data) "latitude";
  if negb (String.eqb (typeof latitude) "number") then Some false else
  longitude ← dot (body_value data) "longitude";
  if negb (String.eqb (typeof longitude) "number") then Some false else
  rssi ← dot (body_value data) "rssi";
  Some (negb (String.eqb (typeof rssi) "undefined")).

(** The record of lines 49-52: [{ ...data, timestamp: Date.now() }]. *)
Definition telemetry_record (now : Z) (data : body) : obj :=
  <["timestamp" := jtime now]> (spread data).

(** [app.post('/api/data/:deviceId')], lines 39-56.  An exception thrown
    by [isValidGpsData] leaves the handler before anything is stored or
    sent; Express answers it with a 500. *)
Definition post_data (now : Z) (deviceId : string) (data : body) (s : state)
  : response * state :=
  match isValidGpsData data with
  | None => (Response 500 VUndefined, s)
  | Some false => (Response 400 (message "Invalid GPS data structure."), s)
  | Some true =>
      let s' := State (table_set (deviceData s) deviceId (telemetry_record now data))
                      (commands s) in
      (Response 200 (message "Data accepted."), s')
  end.

(** The placeholder body of line 68. *)
Definition no_data : value :=
  VJson (JObj (object_literal
    [("message", JStr "No data found for device.");
     ("latitude", JNull); ("longitude", JNull)])).

(** [app.get('/api/data/:deviceId')], lines 61-73. *)
Definition get_data (deviceId : string) (s : state) : response * state :=
  let latestData := table_get (deviceData s) deviceId in
  if negb (truthy latestData)
  then (Response 200 no_data, s)
  else (Response 200 latestData, s).

(** The record of lines 82-85. *)
Definition command_record (active : bool) (now : Z) : obj :=
  object_literal [("buzzer", JBool active); ("timestamp", jtime now)].

(** [app.post('/api/command/:deviceId')], lines 78-89. *)
Definition post_command (now : Z) (deviceId : string) (s : state)
  : response * state :=
  let s' := State (deviceData s)
                  (table_set (commands s) deviceId (command_record true now)) in
  (Response 200 (message "Command queued."), s').

(** The default of line 96: [{ buzzer: false }]. *)
Definition default_command : value :=
  VJson (JObj (object_literal [("buzzer", JBool false)])).

(** [app.get('/api/command/:deviceId')], lines 94-106.  The response is
    sent first, with the value read; the reset follows in the same
    synchronous run of the callback. *)
Definition get_command (now : Z) (deviceId : string) (s : state)
  : response * state :=
  let looked := table_get (commands s) deviceId in
  let command := if truthy looked then looked else default_command in
  let res := Response 200 command in
  if truthy (field command "buzzer")
  then (res, State (deviceData s)
                   (table_set (commands s) deviceId (command_record false now)))
  else (res, s).

(** One request, handled at clock reading [now]. *)
Definition handle (now : Z) (r : request) (s : state) : response * state :=
  match r with
  | PostData deviceId data => post_data now deviceId data s
  | GetData deviceId => get_data deviceId s
  | PostCommand deviceId => post_command now deviceId s
  | GetCommand deviceId => get_command now deviceId s
  end.

(** Lines 115-121: the placeholder device written when the module loads,
    at clock reading [boot]. *)
Definition DEFAULT_DEVICE_ID : string := "VX0dFVvmu1QSpQdvj1p74iyfx9n1".

Definition default_device_record (boot : Z) : obj :=
  object_literal
    [("latitude", JNum (145995 # 10000)); ("longitude", JNum (1209842 # 10000));
     ("rssi", JNum (inject_Z (-90))); ("timestamp", jtime boot)].

Definition init (boot : Z) : state :=
  State (table_set empty_table DEFAULT_DEVICE_ID (default_device_record boot))
        empty_table.

(** Node runs one callback at a time and none of the four handlers awaits
    or defers anything, so a run of the server is a sequence of handler
    runs, each at its own clock reading.  [run] gives the responses in
    order and the final state. *)
Fixpoint run (evs : list (Z * request)) (s : state) : list response * state :=
  match evs with
  | [] => ([], s)
  | (now, r) :: evs' =>
      let '(res, s1) := handle now r s in
      let '(ress, s2) := run evs' s1 in
      (res :: ress, s2)
  end.

(** ** Reading the tables: where a record lives *)

(** The record [r] is what the table holds under [k]: as an own property,
    or, for the key [__proto__], in the prototype slot (and then [r] has
    no own property [__proto__] that would hide the accessor). *)
Definition holds_record (t : table) (k : string) (r : obj) : Prop :=
  own t !! k = Some r
  ∨ (k = "__proto__" ∧ own t !! k = None ∧ proto t = Some r ∧ r !! k = None).

(** A well-formed telemetry record, as the handlers and the seed write it. *)
Definition telemetry_shaped (clock : list Z) (r : obj) : Prop :=
  (∃ q, r !! "latitude" = Some (JNum q))
  ∧ (∃ q, r !! "longitude" = Some (JNum q))
  ∧ is_Some (r !! "rssi")
  ∧ (∃ t, t ∈ clock ∧ r !! "timestamp" = Some (jtime t)).

(** A command record, as the handlers write it: exactly [buzzer] and
    [timestamp]. *)
Definition command_shaped (clock : list Z) (r : obj) : Prop :=
  ∃ b t, t ∈ clock ∧ r = command_record b t.

(** Every record of a table, own or in the prototype slot, satisfies [P]. *)
Definition table_Forall (P : obj → Prop) (t : table) : Prop :=
  map_Forall (λ _ r, P r) (own t) ∧ (∀ p, proto t = Some p → P p).

(** The response carries a record whose [buzzer] property is the boolean
    [b]. *)
Definition buzzer_is (b : bool) (res : response) : Prop :=
  status res = 200
  ∧ ∃ r, sent res = VJson (JObj r) ∧ r !! "buzzer" = Some (JBool b).

(** A named (non-index) member of a parsed body. *)
Definition member (d : body) (k : string) : option json :=
  match d with
  | BObject o => o !! k
  | BArray _ => None
  | BUndefined => None
  end.

(** Shape validation in the words of the specification: latitude is a
    number, longitude is a number, rssi is present (in any type). *)
Definition shape_ok (d : body) : Prop :=
  (∃ q, member d "latitude" = Some (JNum q))
  ∧ (∃ q, member d "longitude" = Some (JNum q))
  ∧ is_Some (member d "rssi").

(** Request classes used to say what may happen in between. *)
Definition is_command_for (id : string) (r : request) : Prop :=
  r = PostCommand id ∨ r = GetCommand id.

Definition is_post_data_for (id : string) (r : request) : Prop :=
  ∃ d, r = PostData id d.

(** The clock readings of a run. *)
Definition clock_of (boot : Z) (evs : list (Z * request)) : list Z :=
  boot :: evs.*1.

(** Nothing was ever assigned to the table under [k], and its prototype
    is still [Object.prototype]. *)
Definition untouched (t : table) (k : string) : Prop :=
  own t !! k = None ∧ own t !! "__proto__" = None ∧ proto t = None.

(** The names under which a lookup in a fresh [{}] finds something. *)
Definition inherited_name (k : string) : Prop :=
  k = "__proto__" ∨ k ∈ object_prototype_methods.

(** The state reached from start-up at clock reading [boot] by the
    requests [evs]. *)
Definition reached (boot : Z) (evs : list (Z * request)) : state :=
  (run evs (init boot)).2.

(** What holds of every state the server can be in: each record of
    [deviceData] is a well-formed telemetry record and each record of
    [commands] a command record, stamped by a clock reading of the run. *)
Definition inv (clock : list Z) (s : state) : Prop :=
  table_Forall (telemetry_shaped clock) (deviceData s)
  ∧ table_Forall (command_shaped clock) (commands s).

(** What a lookup in the command table finds when it finds neither a
    record nor [undefined]: a method of [Object.prototype],
    [Object.prototype] itself, or the boolean or the number that a command
    record installed as prototype has under that name. *)
Definition is_inherited_value (v : value) : Prop :=
  match v with
  | VBuiltin _ => True
  | VObjectPrototype => True
  | VJson (JBool _) => True
  | VJson (JNum _) => True
  | _ => False
  end.

(** Where a telemetry record comes from: it is the record seeded at
    start-up, or the record [{...data, timestamp: t}] of a report of the run
    that passed validation. *)
Definition reported_in (boot : Z) (evs : list (Z * request)) (r : obj) : Prop :=
  r = default_device_record boot
  ∨ ∃ t id data,
      (t, PostData id data) ∈ evs
      ∧ isValidGpsData data = Some true
      ∧ r = telemetry_record t data.

(** The poll that follows an issue, other requests [mid] in between. *)
Definition first_poll (now : Z) (id : string) (mid : list (Z * request))
    (now' : Z) (s : state) : response * state :=
  handle now' (GetCommand id) (run mid (handle now (PostCommand id) s).2).2.

(** The read that follows a report, other requests [mid] in between. *)
Definition read_after_report (now : Z) (id : string) (data : body)
    (mid : list (Z * request)) (now' : Z) (s : state) : response :=
  (handle now' (GetData id) (run mid (handle now (PostData id data) s).2).2).1.

(** ** Bodies used as examples *)

(** [{"latitude":"abc","longitude":1,"rssi":1}] *)
Definition abc_body : body :=
  BObject (object_literal
    [("latitude", JStr "abc"); ("longitude", JNum 1); ("rssi", JNum 1)]).

(** [{"latitude":14.6,"longitude":120.9,"rssi":-80}] *)
Definition example_body : body :=
  BObject (object_literal
    [("latitude", JNum (146 # 10)); ("longitude", JNum (1209 # 10));
     ("rssi", JNum (inject_Z (-80)))]).

(** [{"latitude":1,"longitude":2,"rssi":3,"timestamp":5}] *)
Definition stamped_body : body :=
  BObject (object_literal
    [("latitude", JNum 1); ("longitude", JNum 2); ("rssi", JNum 3);
     ("timestamp", JNum 5)]).

(** [{"latitude":1,"longitude":2,"rssi":3,"__proto__":0}]: [JSON.parse]
    makes [__proto__] an own property, and so does the spread. *)
Definition proto_body : body :=
  BObject (object_literal
    [("latitude", JNum 1); ("longitude", JNum 2); ("rssi", JNum 3);
     ("__proto__", JNum 0)]).

(** ** Reading a run *)

(** The deviceId a request is about. *)
Definition target (r : request) : string :=
  match r with
  | PostData id _ => id
  | GetData id => id
  | PostCommand id => id
  | GetCommand id => id
  end.

(** The requests that can write to [deviceData]: the reports that pass
    validation. *)
Definition is_accepted_report (r : request) : bool :=
  match r with
  | PostData _ data =>
      match isValidGpsData data with
      | Some true => true
      | _ => false
      end
  | _ => false
  end.

(** The requests routed to the two command handlers. *)
Definition is_command_request (r : request) : bool :=
  match r with
  | PostCommand _ | GetCommand _ => true
  | _ => false
  end.

Definition is_issue_for (id : string) (r : request) : bool :=
  match r with
  | PostCommand id' => String.eqb id' id
  | _ => false
  end.

Definition is_poll_of (id : string) (r : request) : bool :=
  match r with
  | GetCommand id' => String.eqb id' id
  | _ => false
  end.

(** The response delivers the command: its body is a record whose
    [buzzer] is [true]. *)
Definition delivers (res : response) : bool :=
  match sent res with
  | VJson (JObj r) =>
      match r !! "buzzer" with
      | Some (JBool true) => true
      | _ => false
      end
  | _ => false
  end.

(** A command waits for [id]: what [commands[id]] gives is a record whose
    [buzzer] is [true]. *)
Definition pending (id : string) (s : state) : bool :=
  delivers (Response 200 (table_get (commands s) id)).

(** How many polls of [id] in the run deliver the command. *)
Fixpoint deliveries (id : string) (evs : list (Z * request)) (s : state) : nat :=
  match evs with
  | [] => 0
  | (now, r) :: evs' =>
      let '(res, s1) := handle now r s in
      (Nat.b2n (is_poll_of id r && delivers res) + deliveries id evs' s1)%nat
  end.

(** How many times the command is issued for [id] in the run. *)
Fixpoint issues (id : string) (evs : list (Z * request)) : nat :=
  match evs with
  | [] => 0
  | (_, r) :: evs' => (Nat.b2n (is_issue_for id r) + issues id evs')%nat
  end.

(** ** Lemmas on tables *)

Section tables.
Implicit Types (t : table) (k : string) (r : obj).

Lemma holds_record_get t k r :
  holds_record t k r → table_get t k = VJson (JObj r).
Proof.
  intros [Hown | (-> & Hown & Hp & Hr)]; unfold table_get; rewrite Hown; [done|].
  by rewrite Hp, Hr.
Qed.

Lemma reaches_proto_setter_key t k :
  reaches_proto_setter t k = true → k = "__proto__".
Proof.
  unfold reaches_proto_setter. intros H.
  apply andb_prop in H as [H _]. apply andb_prop in H as [H _].
  by apply String.eqb_eq.
Qed.

Lemma reaches_proto_setter_own t k :
  reaches_proto_setter t k = true → own t !! k = None.
Proof.
  unfold reaches_proto_setter. intros H.
  apply andb_prop in H as [H _]. apply andb_prop in H as [_ H].
  by apply bool_decide_eq_true in H.
Qed.

Lemma table_set_holds t k r :
  k ≠ "__proto__" ∨ r !! "__proto__" = None →
  holds_record (table_set t k r) k r.
Proof.
  intros Hk. unfold table_set.
  destruct (reaches_proto_setter t k) eqn:E.
  - pose proof (reaches_proto_setter_key _ _ E) as ->.
    destruct Hk as [Hk | Hk]; [done|].
    right. simpl. split_and!; auto using reaches_proto_setter_own.
  - left. simpl. apply lookup_insert_eq.
Qed.

Lemma table_set_frame t k k' r r' :
  k ≠ k' → holds_record t k r → holds_record (table_set t k' r') k r.
Proof.
  intros Hne Hh. unfold table_set.
  destruct (reaches_proto_setter t k') eqn:E.
  - pose proof (reaches_proto_setter_key _ _ E) as ->.
    destruct Hh as [Hown | (-> & _)]; [by left | done].
  - destruct Hh as [Hown | (-> & Hown & Hp & Hr)].
    + left. simpl. by rewrite lookup_insert_ne.
    + right. simpl. split_and!; auto. by rewrite lookup_insert_ne.
Qed.

(** Assigning twice under one key leaves what assigning the second record
    alone leaves, when the first record has no own [__proto__]. *)
Lemma table_set_twice t k r1 r2 :
  r1 !! "__proto__" = None →
  table_set (table_set t k r1) k r2 = table_set t k r2.
Proof.
  intros Hr1. unfold table_set at 2 3.
  destruct (reaches_proto_setter t k) eqn:E.
  - pose proof (reaches_proto_setter_key _ _ E) as ->.
    unfold table_set, reaches_proto_setter. simpl.
    rewrite (reaches_proto_setter_own _ _ E).
    rewrite !bool_decide_eq_true_2 by done. done.
  - unfold table_set, reaches_proto_setter. simpl.
    rewrite lookup_insert_eq. rewrite (bool_decide_eq_false_2 (Some r1 = None)) by done.
    rewrite andb_false_r. simpl. by rewrite insert_insert_eq.
Qed.

Lemma table_set_Forall (P : obj → Prop) t k r :
  P r → table_Forall P t → table_Forall P (table_set t k r).
Proof.
  intros Hr [Hown Hp]. unfold table_set.
  destruct (reaches_proto_setter t k); split; simpl; auto.
  - by intros p [= <-].
  - by apply map_Forall_insert_2.
Qed.

Lemma table_Forall_impl (P Q : obj → Prop) t :
  (∀ r, P r → Q r) → table_Forall P t → table_Forall Q t.
Proof.
  intros HPQ [Hown Hp]. split.
  - eapply map_Forall_impl; eauto.
  - eauto.
Qed.

Lemma table_Forall_holds (P : obj → Prop) t k r :
  table_Forall P t → holds_record t k r → P r.
Proof.
  intros [Hown Hp] [H | (_ & _ & H & _)]; eauto.
Qed.
End tables.

(** ** Lemmas on the records the handlers build *)

Lemma command_record_buzzer b t :
  command_record b t !! "buzzer" = Some (JBool b).
Proof. reflexivity. Qed.

Lemma command_record_timestamp b t :
  command_record b t !! "timestamp" = Some (jtime t).
Proof. reflexivity. Qed.

Lemma command_record_other b t k :
  k ≠ "buzzer" → k ≠ "timestamp" → command_record b t !! k = None.
Proof.
  intros H1 H2. unfold command_record, object_literal. simpl.
  by rewrite !lookup_insert_ne, lookup_empty.
Qed.

Lemma command_record_lookup b t k j :
  command_record b t !! k = Some j → j = JBool b ∨ j = jtime t.
Proof.
  destruct (decide (k = "buzzer")) as [->|Hb].
  { rewrite command_record_buzzer. intros [= <-]. by left. }
  destruct (decide (k = "timestamp")) as [->|Ht].
  { rewrite command_record_timestamp. intros [= <-]. by right. }
  by rewrite command_record_other.
Qed.

Lemma telemetry_record_timestamp now data :
  telemetry_record now data !! "timestamp" = Some (jtime now).
Proof. apply lookup_insert_eq. Qed.

Lemma telemetry_record_other now data k :
  k ≠ "timestamp" → telemetry_record now data !! k = spread data !! k.
Proof. intros H. unfold telemetry_record. by rewrite lookup_insert_ne. Qed.

Lemma field_body_value data k :
  field (body_value data) k
  = match member data k with Some j => VJson j | None => VUndefined end.
Proof. by destruct data. Qed.

Lemma typeof_number v :
  String.eqb (typeof v) "number" = true ↔ ∃ q, v = VJson (JNum q).
Proof.
  split.
  - destruct v as [|[]| |]; simpl; try discriminate. eauto.
  - by intros [q ->].
Qed.

Lemma typeof_undefined v :
  String.eqb (typeof v) "undefined" = true ↔ v = VUndefined.
Proof. split; [by destruct v as [|[]| |] | by intros ->]. Qed.

Lemma spread_member data k j :
  member data k = Some j → spread data !! k = Some j.
Proof. by destruct data. Qed.

(** What the check computes: the conjunction of the three tests, unless
    the body is [undefined]. *)
Lemma isValidGpsData_tests data :
  isValidGpsData data
  = match data with
    | BUndefined => None
    | _ =>
        Some (String.eqb (typeof (field (body_value data) "latitude")) "number"
              && String.eqb (typeof (field (body_value data) "longitude"))
                   "number"
              && negb (String.eqb (typeof (field (body_value data) "rssi"))
                         "undefined"))
    end.
Proof.
  unfold isValidGpsData.
  destruct data as [o|l|]; [| |done]; unfold dot, body_value;
    cbn [mbind option_bind];
    repeat (destruct (String.eqb _ "number"); cbn [negb andb]; try done).
Qed.

(** The source's check is the specification's shape validation. *)
Lemma isValidGpsData_shape_ok data :
  isValidGpsData data = Some true ↔ shape_ok data.
Proof.
  assert (String.eqb (typeof (field (body_value data) "latitude")) "number"
          && String.eqb (typeof (field (body_value data) "longitude")) "number"
          && negb (String.eqb (typeof (field (body_value data) "rssi"))
                     "undefined") = true
          ↔ shape_ok data) as Htests.
  { unfold shape_ok.
    rewrite !andb_true_iff, negb_true_iff, !typeof_number.
    rewrite <- not_true_iff_false, typeof_undefined, !field_body_value.
    split.
    - intros [[[q1 H1] [q2 H2]] H3]. split_and!.
      + exists q1. destruct (member data "latitude"); naive_solver.
      + exists q2. destruct (member data "longitude"); naive_solver.
      + destruct (member data "rssi"); naive_solver.
    - intros ([q1 ->] & [q2 ->] & [j ->]). naive_solver. }
  rewrite isValidGpsData_tests. destruct data as [o|l|].
  - rewrite <- Htests. split; [congruence|]. intros H. f_equal. exact H.
  - rewrite <- Htests. split; [congruence|]. intros H. f_equal. exact H.
  - split; [discriminate|]. intros ([q Hq] & _). discriminate Hq.
Qed.

(** On a body that was parsed the check returns; it throws on
    [undefined] only. *)
Lemma isValidGpsData_returns data :
  isValidGpsData data = None ↔ data = BUndefined.
Proof. rewrite isValidGpsData_tests. by destruct data. Qed.

(** ** Lemmas on the handlers *)

Section handlers.
Implicit Types (s : state) (id : string) (r : obj) (req : request).

Lemma run_cons now req evs s :
  run ((now, req) :: evs) s
  = ((handle now req s).1 :: (run evs (handle now req s).2).1,
     (run evs (handle now req s).2).2).
Proof.
  simpl. destruct (handle now req s) as [res s1]. simpl.
  by destruct (run evs s1) as [ress s2].
Qed.

(** Every request is answered. *)
Lemma run_length evs s : length (run evs s).1 = length evs.
Proof.
  revert s. induction evs as [|[now req] evs IH]; intros s; [done|].
  rewrite run_cons. simpl. by rewrite IH.
Qed.

(** *** The command table *)

Lemma post_command_holds now id s :
  holds_record (commands (post_command now id s).2) id (command_record true now).
Proof. simpl. apply table_set_holds. by right. Qed.

Lemma get_command_holds now id s r :
  holds_record (commands s) id r →
  get_command now id s
  = (Response 200 (VJson (JObj r)),
     if truthy (field (VJson (JObj r)) "buzzer")
     then State (deviceData s)
                (table_set (commands s) id (command_record false now))
     else s).
Proof.
  intros H. unfold get_command. rewrite (holds_record_get _ _ _ H). simpl.
  by destruct (truthy _).
Qed.

Lemma get_command_pending now id s t :
  holds_record (commands s) id (command_record true t) →
  buzzer_is true (get_command now id s).1
  ∧ holds_record (commands (get_command now id s).2) id (command_record false now).
Proof.
  intros H. rewrite (get_command_holds _ _ _ _ H). simpl. split.
  - split; [done|]. eexists; split; [done|]. apply command_record_buzzer.
  - apply table_set_holds. by right.
Qed.

Lemma get_command_idle now id s t :
  holds_record (commands s) id (command_record false t) →
  buzzer_is false (get_command now id s).1 ∧ (get_command now id s).2 = s.
Proof.
  intros H. rewrite (get_command_holds _ _ _ _ H). simpl. split; [|done].
  split; [done|]. eexists; split; [done|]. apply command_record_buzzer.
Qed.

Lemma get_command_frame now id id' s r :
  id ≠ id' →
  holds_record (commands s) id r →
  holds_record (commands (get_command now id' s).2) id r.
Proof.
  intros Hne H. unfold get_command. cbv zeta.
  destruct (truthy (field _ "buzzer")); simpl; [|done].
  by apply table_set_frame.
Qed.

Lemma handle_commands_frame now req id s r :
  ¬ is_command_for id req →
  holds_record (commands s) id r →
  holds_record (commands (handle now req s).2) id r.
Proof.
  intros Hreq H. destruct req as [id' d|id'|id'|id']; simpl.
  - unfold post_data. by destruct (isValidGpsData _) as [[]|].
  - unfold get_data. cbv zeta. by destruct (negb _).
  - apply table_set_frame; [|done]. intros ->. apply Hreq. by left.
  - apply get_command_frame; [|done]. intros ->. apply Hreq. by right.
Qed.

Lemma run_commands_frame evs id s r :
  Forall (λ e, ¬ is_command_for id e.2) evs →
  holds_record (commands s) id r →
  holds_record (commands (run evs s).2) id r.
Proof.
  intros Hevs. revert s. induction Hevs as [|[now req] evs Hreq _ IH]; intros s H.
  - done.
  - rewrite run_cons. simpl. apply IH. by apply handle_commands_frame.
Qed.

(** Once read, the flag stays down until the next issue: every request
    but [POST /api/command/id] keeps the cleared record, and a poll sees
    [false]. *)
Lemma handle_cleared now req id s :
  req ≠ PostCommand id →
  (∃ t, holds_record (commands s) id (command_record false t)) →
  (∃ t, holds_record (commands (handle now req s).2) id (command_record false t))
  ∧ (req = GetCommand id → buzzer_is false (handle now req s).1).
Proof.
  intros Hreq [t H].
  assert (req = GetCommand id ∨ ¬ is_command_for id req) as [->|Hother].
  { destruct req as [id' d|id'|id'|id'];
      try (right; intros [|]; congruence).
    destruct (decide (id' = id)) as [->|]; [by left|].
    right; intros [|]; congruence. }
  - simpl. destruct (get_command_idle now _ _ _ H) as [Hb ->]. eauto.
  - split.
    + exists t. by apply handle_commands_frame.
    + intros ->. destruct Hother. by right.
Qed.

Lemma run_cleared evs id s :
  Forall (λ e, e.2 ≠ PostCommand id) evs →
  (∃ t, holds_record (commands s) id (command_record false t)) →
  ∀ i now, evs !! i = Some (now, GetCommand id) →
    ∃ res, (run evs s).1 !! i = Some res ∧ buzzer_is false res.
Proof.
  intros Hevs. revert s.
  induction Hevs as [|[now' req] evs Hreq _ IH]; intros s H i now Hi; [done|].
  rewrite run_cons. simpl in Hreq.
  destruct (handle_cleared now' req id s Hreq H) as [H' Hres].
  destruct i as [|i]; simpl in *.
  - injection Hi as -> ->. eauto.
  - eapply IH; eauto.
Qed.

(** *** The telemetry table *)

Lemma post_data_valid now id data s :
  isValidGpsData data = Some true →
  post_data now id data s
  = (Response 200 (message "Data accepted."),
     State (table_set (deviceData s) id (telemetry_record now data)) (commands s)).
Proof. intros H. unfold post_data. by rewrite H. Qed.

Lemma post_data_invalid now id data s :
  isValidGpsData data = Some false →
  post_data now id data s
  = (Response 400 (message "Invalid GPS data structure."), s).
Proof. intros H. unfold post_data. by rewrite H. Qed.

Lemma post_data_throws now id data s :
  isValidGpsData data = None →
  post_data now id data s = (Response 500 VUndefined, s).
Proof. intros H. unfold post_data. by rewrite H. Qed.

Lemma get_data_holds id s r :
  holds_record (deviceData s) id r →
  get_data id s = (Response 200 (VJson (JObj r)), s).
Proof.
  intros H. unfold get_data. by rewrite (holds_record_get _ _ _ H).
Qed.

Lemma get_data_state id s : (get_data id s).2 = s.
Proof. unfold get_data. cbv zeta. by destruct (negb _). Qed.

Lemma handle_data_frame now req id s r :
  ¬ is_post_data_for id req →
  holds_record (deviceData s) id r →
  holds_record (deviceData (handle now req s).2) id r.
Proof.
  intros Hreq H. destruct req as [id' d|id'|id'|id']; simpl.
  - unfold post_data. destruct (isValidGpsData _) as [[]|]; simpl; [|done..].
    apply table_set_frame; [|done]. intros ->. apply Hreq. by exists d.
  - by rewrite get_data_state.
  - done.
  - unfold get_command. cbv zeta. by destruct (truthy (field _ _)).
Qed.

Lemma run_data_frame evs id s r :
  Forall (λ e, ¬ is_post_data_for id e.2) evs →
  holds_record (deviceData s) id r →
  holds_record (deviceData (run evs s).2) id r.
Proof.
  intros Hevs. revert s. induction Hevs as [|[now req] evs Hreq _ IH]; intros s H.
  - done.
  - rewrite run_cons. simpl. apply IH. by apply handle_data_frame.
Qed.

(** A report that passes validation, and is not the one pair of key and
    body that the [__proto__] accessor mangles, is what the next read of
    that device returns. *)
Lemma post_data_then_get now id data mid now' s :
  isValidGpsData data = Some true →
  id ≠ "__proto__" ∨ spread data !! "__proto__" = None →
  Forall (λ e, ¬ is_post_data_for id e.2) mid →
  (handle now' (GetData id)
     (run mid (handle now (PostData id data) s).2).2).1
  = Response 200 (VJson (JObj (telemetry_record now data))).
Proof.
  intros Hv Hid Hmid. simpl. rewrite post_data_valid by done. simpl.
  erewrite get_data_holds; [done|].
  apply run_data_frame; [done|]. simpl. apply table_set_holds.
  destruct Hid as [Hid|Hid]; [by left|right].
  by rewrite telemetry_record_other.
Qed.

End handlers.

(** ** What holds of every reachable state *)

Section invariant.
Implicit Types (s : state) (clock : list Z).

Lemma telemetry_shaped_mono clock clock' r :
  clock ⊆ clock' → telemetry_shaped clock r → telemetry_shaped clock' r.
Proof.
  intros Hsub (Hlat & Hlon & Hrssi & t & Ht & Hts).
  split_and!; [done..|]. exists t. auto.
Qed.

Lemma command_shaped_mono clock clock' r :
  clock ⊆ clock' → command_shaped clock r → command_shaped clock' r.
Proof. intros Hsub (b & t & Ht & ->). exists b, t. auto. Qed.

Lemma inv_mono clock clock' s : clock ⊆ clock' → inv clock s → inv clock' s.
Proof.
  intros Hsub [Hd Hc]. split.
  - eapply table_Forall_impl; [|done]. intros r. by apply telemetry_shaped_mono.
  - eapply table_Forall_impl; [|done]. intros r. by apply command_shaped_mono.
Qed.

Lemma telemetry_record_shaped now data :
  isValidGpsData data = Some true → telemetry_shaped [now] (telemetry_record now data).
Proof.
  intros ([q1 H1] & [q2 H2] & [j H3])%isValidGpsData_shape_ok.
  unfold telemetry_shaped.
  rewrite !telemetry_record_other, telemetry_record_timestamp by done.
  rewrite (spread_member _ _ _ H1), (spread_member _ _ _ H2),
    (spread_member _ _ _ H3).
  split_and!; eauto. exists now. split; [set_solver|done].
Qed.

Lemma command_record_shaped b now : command_shaped [now] (command_record b now).
Proof. exists b, now. split; [set_solver|done]. Qed.

Lemma clock_last clock (now : Z) : [now] ⊆ (clock ++ [now])%list.
Proof. intros t Ht. apply elem_of_app. by right. Qed.

Lemma clock_first clock (now : Z) : clock ⊆ (clock ++ [now])%list.
Proof. intros t Ht. apply elem_of_app. by left. Qed.

Lemma handle_inv clock now req s :
  inv clock s → inv (clock ++ [now]) (handle now req s).2.
Proof.
  intros H. apply (inv_mono _ (clock ++ [now])) in H; [|apply clock_first].
  destruct H as [Hd Hc].
  destruct req as [id d|id|id|id]; simpl.
  - unfold post_data. destruct (isValidGpsData d) as [[]|] eqn:E; simpl; [|done..].
    split; [|done]. apply table_set_Forall; [|done].
    eapply telemetry_shaped_mono; [|by apply telemetry_record_shaped].
    apply clock_last.
  - by rewrite get_data_state.
  - split; [done|]. apply table_set_Forall; [|done].
    eapply command_shaped_mono; [|apply command_record_shaped].
    apply clock_last.
  - unfold get_command. cbv zeta. destruct (truthy (field _ _)); [|done].
    split; [done|]. apply table_set_Forall; [|done].
    eapply command_shaped_mono; [|apply command_record_shaped].
    apply clock_last.
Qed.

Lemma run_inv clock evs s :
  inv clock s → inv (clock ++ evs.*1) (run evs s).2.
Proof.
  revert clock s. induction evs as [|[now req] evs IH]; intros clock s H.
  - simpl. by rewrite app_nil_r.
  - rewrite run_cons. simpl. rewrite cons_middle, app_assoc.
    apply IH. by apply handle_inv.
Qed.

Lemma init_inv boot : inv [boot] (init boot).
Proof.
  split.
  - apply table_set_Forall; [|by split].
    split_and!; [by eexists..|]. exists boot. split; [set_solver|done].
  - by split.
Qed.

Lemma reached_inv boot evs : inv (clock_of boot evs) (reached boot evs).
Proof. apply (run_inv [boot]), init_inv. Qed.

Lemma reported_in_mono boot evs evs' r :
  evs ⊆ evs' → reported_in boot evs r → reported_in boot evs' r.
Proof.
  intros Hsub [->|(t & id & data & Hin & Hv & ->)]; [by left|].
  right. exists t, id, data. auto.
Qed.

Lemma handle_reported boot pre now req s :
  table_Forall (reported_in boot pre) (deviceData s) →
  table_Forall (reported_in boot (pre ++ [(now, req)]))
    (deviceData (handle now req s).2).
Proof.
  intros H.
  apply (table_Forall_impl _ (reported_in boot (pre ++ [(now, req)]))) in H.
  2:{ intros r. apply reported_in_mono. intros e He. apply elem_of_app. by left. }
  destruct req as [id d|id|id|id]; simpl.
  - unfold post_data. destruct (isValidGpsData d) as [[]|] eqn:E; simpl;
      [|done..].
    apply table_set_Forall; [|done]. right. exists now, id, d.
    split_and!; [|done..]. apply elem_of_app. right. by apply list_elem_of_singleton.
  - by rewrite get_data_state.
  - done.
  - unfold get_command. cbv zeta. by destruct (truthy (field _ _)).
Qed.

Lemma run_reported boot pre evs s :
  table_Forall (reported_in boot pre) (deviceData s) →
  table_Forall (reported_in boot (pre ++ evs)) (deviceData (run evs s).2).
Proof.
  revert pre s. induction evs as [|[now req] evs IH]; intros pre s H.
  - simpl. by rewrite app_nil_r.
  - rewrite run_cons. simpl. rewrite cons_middle, app_assoc.
    apply IH. by apply handle_reported.
Qed.

Lemma reached_reported boot evs :
  table_Forall (reported_in boot evs) (deviceData (reached boot evs)).
Proof.
  apply (run_reported boot []). apply table_set_Forall; [by left|].
  split; [apply map_Forall_empty|done].
Qed.

(** Only an object passes validation. *)
Lemma valid_body_is_object data :
  isValidGpsData data = Some true → ∃ o, data = BObject o.
Proof.
  intros ([q Hq] & _)%isValidGpsData_shape_ok.
  destruct data as [o|l|]; [by exists o|done..].
Qed.

End invariant.

(** ** The one-shot buzzer command *)

(** A pending command is seen by the next poll of its device, which clears
    it; the polls after that see it cleared. *)
Lemma poll_pending s id t now' rest :
  holds_record (commands s) id (command_record true t) →
  Forall (λ e, e.2 ≠ PostCommand id) rest →
  buzzer_is true (handle now' (GetCommand id) s).1
  ∧ ∀ i t', rest !! i = Some (t', GetCommand id) →
      ∃ res, (run rest (handle now' (GetCommand id) s).2).1 !! i = Some res
             ∧ buzzer_is false res.
Proof.
  intros Hpending Hrest. simpl.
  destruct (get_command_pending now' _ _ _ Hpending) as [Htrue Hclear].
  split; [done|].
  apply run_cleared; [done|]. by exists now'.
Qed.

(** C1.  After [POST /api/command/id], the first [GET /api/command/id]
    answers 200 with a record whose buzzer flag is [true] and, in the same
    handler run, replaces the stored record by one whose flag is [false];
    every later [GET /api/command/id] answers with the flag [false] as
    long as no [POST /api/command/id] comes in between.  This holds for every
    deviceId and from every state, whatever other requests (reports,
    reads, commands and polls of other devices) are served before the
    first poll and between the later ones. *)
Theorem C1_command_read_once s now id mid now' rest :
  Forall (λ e, ¬ is_command_for id e.2) mid →
  Forall (λ e, e.2 ≠ PostCommand id) rest →
  buzzer_is true (first_poll now id mid now' s).1
  ∧ holds_record (commands (first_poll now id mid now' s).2) id
      (command_record false now')
  ∧ ∀ i t, rest !! i = Some (t, GetCommand id) →
      ∃ res, (run rest (first_poll now id mid now' s).2).1 !! i = Some res
             ∧ buzzer_is false res.
Proof.
  intros Hmid Hrest. unfold first_poll.
  assert (holds_record
            (commands (run mid (handle now (PostCommand id) s).2).2) id
            (command_record true now)) as Hpending.
  { apply run_commands_frame; [done|]. apply post_command_holds. }
  split_and!.
  - by apply (poll_pending _ _ now _ rest).
  - by apply (get_command_pending _ _ _ now).
  - by apply (poll_pending _ _ now).
Qed.

Lemma C1_command_read_once_witness :
  Forall (λ e : Z * request, ¬ is_command_for "dev1" e.2)
    [(11, GetData "dev1"); (12, PostCommand "dev2")]
  ∧ Forall (λ e : Z * request, e.2 ≠ PostCommand "dev1")
      [(14, GetCommand "dev1"); (15, GetCommand "dev2"); (16, GetCommand "dev1")]
  ∧ buzzer_is true
      (first_poll 10 "dev1" [(11, GetData "dev1"); (12, PostCommand "dev2")]
         13 (init 0)).1.
Proof.
  assert (Forall (λ e : Z * request, ¬ is_command_for "dev1" e.2)
            [(11, GetData "dev1"); (12, PostCommand "dev2")]) as Hmid.
  { repeat constructor; intros [H|H]; discriminate H. }
  assert (Forall (λ e : Z * request, e.2 ≠ PostCommand "dev1")
            [(14, GetCommand "dev1"); (15, GetCommand "dev2");
             (16, GetCommand "dev1")]) as Hrest.
  { repeat constructor; intros H; discriminate H. }
  split; [exact Hmid|]. split; [exact Hrest|].
  exact (proj1 (C1_command_read_once (init 0) 10 "dev1" _ 13 _ Hmid Hrest)).
Defined.

(** C5.  Issuing twice before any poll is issuing once: the state after
    the two [POST /api/command/id] is the state a single one leaves at the
    later clock reading (so the two differ by the time stamp alone), the
    next poll sees [true] and every poll after it sees [false] until the
    next issue.  Nothing is counted or queued. *)
Theorem C5_issue_twice_is_once s t1 t2 id now' rest :
  Forall (λ e, e.2 ≠ PostCommand id) rest →
  (handle t2 (PostCommand id) (handle t1 (PostCommand id) s).2).2
  = (handle t2 (PostCommand id) s).2
  ∧ buzzer_is true
      (first_poll t1 id [(t2, PostCommand id)] now' s).1
  ∧ ∀ i t, rest !! i = Some (t, GetCommand id) →
      ∃ res, (run rest (first_poll t1 id [(t2, PostCommand id)] now' s).2).1 !! i
             = Some res
             ∧ buzzer_is false res.
Proof.
  intros Hrest.
  assert ((handle t2 (PostCommand id) (handle t1 (PostCommand id) s).2).2
          = (handle t2 (PostCommand id) s).2) as Heq.
  { simpl. f_equal. by apply table_set_twice. }
  split; [done|].
  unfold first_poll. rewrite run_cons. cbn [run snd]. rewrite Heq.
  apply (poll_pending _ _ t2); [|done]. apply post_command_holds.
Qed.

Lemma C5_issue_twice_is_once_witness :
  Forall (λ e : Z * request, e.2 ≠ PostCommand "dev1")
    [(14, GetCommand "dev1"); (15, GetCommand "dev1")]
  ∧ (handle 12 (PostCommand "dev1") (handle 11 (PostCommand "dev1") (init 0)).2).2
    = (handle 12 (PostCommand "dev1") (init 0)).2.
Proof.
  assert (Forall (λ e : Z * request, e.2 ≠ PostCommand "dev1")
            [(14, GetCommand "dev1"); (15, GetCommand "dev1")]) as Hrest.
  { repeat constructor; intros H; discriminate H. }
  split; [exact Hrest|].
  exact (proj1 (C5_issue_twice_is_once (init 0) 11 12 "dev1" 13 _ Hrest)).
Defined.

(** C9.  Two polls of one device are in flight right after one issue.
    Node runs the callback of one request to its end before it starts the
    next, and the poll handler neither awaits nor defers anything between
    reading the record and resetting it, so the executions of the two
    polls are their two orders of arrival.  In either order exactly one
    poll, the one served first, answers with the buzzer flag [true], and
    the other answers [false]. *)
Theorem C9_concurrent_polls s now id ta tb sched :
  sched ≡ₚ [(ta, GetCommand id); (tb, GetCommand id)] →
  ∃ r1 r2,
    (run sched (handle now (PostCommand id) s).2).1 = [r1; r2]
    ∧ buzzer_is true r1 ∧ buzzer_is false r2.
Proof.
  intros Hperm. symmetry in Hperm.
  assert (∃ t t', sched = [(t, GetCommand id); (t', GetCommand id)])
    as (t & t' & ->).
  { apply Permutation_length_2_inv in Hperm as [-> | ->]; eauto. }
  destruct (poll_pending (handle now (PostCommand id) s).2 id now t
              [(t', GetCommand id)]) as [Htrue Hlater].
  { apply post_command_holds. }
  { repeat constructor. intros H. discriminate H. }
  destruct (Hlater 0%nat t' eq_refl) as (res & Hres & Hfalse).
  rewrite run_cons in Hres. injection Hres as <-.
  rewrite !run_cons. cbn [fst snd].
  eexists _, _. split; [reflexivity|]. split; [exact Htrue|exact Hfalse].
Qed.

Lemma C9_concurrent_polls_witness :
  [(22, GetCommand "dev1"); (21, GetCommand "dev1")]
    ≡ₚ [(21, GetCommand "dev1"); (22, GetCommand "dev1")]
  ∧ ∃ r1 r2,
      (run [(22, GetCommand "dev1"); (21, GetCommand "dev1")]
         (handle 20 (PostCommand "dev1") (init 0)).2).1 = [r1; r2]
      ∧ buzzer_is true r1 ∧ buzzer_is false r2.
Proof.
  assert ([(22, GetCommand "dev1"); (21, GetCommand "dev1")]
            ≡ₚ [(21, GetCommand "dev1"); (22, GetCommand "dev1")]) as Hperm.
  { apply perm_swap. }
  split; [exact Hperm|].
  exact (C9_concurrent_polls (init 0) 20 "dev1" 21 22 _ Hperm).
Defined.

(** ** Reports and their validation *)

(** How a report is answered when [express.json()] parsed its body: 400
    exactly when the body fails shape validation (latitude not a number,
    or longitude not a number, or rssi absent) and 200 exactly when it
    passes; a 400 leaves the whole state, the telemetry table included, as
    it was; and the body [{"latitude":"abc","longitude":1,"rssi":1}] is
    answered 400. *)
Lemma post_data_status_parsed now id data s :
  data ≠ BUndefined →
  (status (handle now (PostData id data) s).1 = 400 ↔ ¬ shape_ok data)
  ∧ (status (handle now (PostData id data) s).1 = 200 ↔ shape_ok data)
  ∧ (status (handle now (PostData id data) s).1 = 400 →
     (handle now (PostData id data) s).2 = s)
  ∧ status (handle now (PostData id abc_body) s).1 = 400.
Proof.
  intros Hparsed. simpl. rewrite <- isValidGpsData_shape_ok.
  destruct (isValidGpsData data) as [[]|] eqn:E.
  - rewrite post_data_valid by done. simpl.
    split_and!; [split; [discriminate|by intros []] |done|discriminate|done].
  - rewrite post_data_invalid by done. simpl.
    split_and!; [split; [discriminate|done] |split; discriminate|done..].
  - by apply isValidGpsData_returns in E.
Qed.

(** C3.  A report whose body was not parsed and reaches the handler as
    [undefined] (Express 5, for a request without a JSON body) fails shape
    validation, yet it is not answered 400: [data.latitude] at line 29
    throws, the handler is left before line 45, and the request ends in a
    500.  The state is left as it was. *)
Theorem C3_unparsed_body_is_not_rejected now id s :
  ¬ shape_ok BUndefined
  ∧ isValidGpsData BUndefined = None
  ∧ handle now (PostData id BUndefined) s = (Response 500 VUndefined, s).
Proof.
  split_and!; [|done..].
  intros ([q Hq] & _). discriminate Hq.
Qed.

(** What a report that passes validation gives back on the next read, for
    every pair of deviceId and body except [__proto__] with a body that
    has a [__proto__] member: the posted latitude, longitude and rssi, and
    the clock reading of the report as time stamp. *)
Lemma telemetry_round_trip s now id data mid now' :
  isValidGpsData data = Some true →
  id ≠ "__proto__" ∨ spread data !! "__proto__" = None →
  Forall (λ e, ¬ is_post_data_for id e.2) mid →
  ∃ r, read_after_report now id data mid now' s = Response 200 (VJson (JObj r))
       ∧ r !! "latitude" = member data "latitude"
       ∧ r !! "longitude" = member data "longitude"
       ∧ r !! "rssi" = member data "rssi"
       ∧ r !! "timestamp" = Some (jtime now).
Proof.
  intros Hv Hid Hmid. exists (telemetry_record now data).
  unfold read_after_report. rewrite post_data_then_get by done.
  rewrite !telemetry_record_other, telemetry_record_timestamp by done.
  apply isValidGpsData_shape_ok in Hv as ([q1 H1] & [q2 H2] & [j H3]).
  rewrite H1, H2, H3.
  by rewrite (spread_member _ _ _ H1), (spread_member _ _ _ H2),
    (spread_member _ _ _ H3).
Qed.

(** C2.  The round trip of a report is lost at the deviceId [__proto__]
    when the body has a member [__proto__]: the body below passes
    validation and is answered 200, the assignment to
    [deviceData["__proto__"]] makes the record the prototype of the table,
    and the read that follows finds the record's own [__proto__] member (the
    number 0, falsy) instead of the record, so it answers with the
    placeholder "No data found for device." and null coordinates rather
    than with the posted latitude, longitude and rssi. *)
Theorem C2_report_under_proto_is_lost :
  isValidGpsData proto_body = Some true
  ∧ (run [(1000, PostData "__proto__" proto_body); (2000, GetData "__proto__")]
       (init 0)).1
    = [Response 200 (message "Data accepted."); Response 200 no_data]
  ∧ field no_data "latitude" = VJson JNull
  ∧ member proto_body "latitude" = Some (JNum 1).
Proof. by vm_compute. Qed.

(** ** Devices the tables do not know *)

(** A deviceId that reaches [undefined] in the telemetry table gets the
    placeholder. *)
Lemma get_data_unknown s id :
  table_get (deviceData s) id = VUndefined →
  get_data id s = (Response 200 no_data, s).
Proof. intros H. unfold get_data. by rewrite H. Qed.

(** A deviceId that reaches [undefined] in the command table gets the
    default command, and nothing is written. *)
Lemma get_command_unknown s now id :
  table_get (commands s) id = VUndefined →
  get_command now id s = (Response 200 default_command, s).
Proof. intros H. unfold get_command. by rewrite H. Qed.

(** On a table that still has [Object.prototype] as prototype, the keys
    that reach [undefined] are the ones that are neither own properties
    nor names defined on [Object.prototype]. *)
Lemma table_get_undefined t k :
  own t !! k = None → proto t = None →
  k ≠ "__proto__" → k ∉ object_prototype_methods →
  table_get t k = VUndefined.
Proof.
  intros Hown Hproto Hk Hm. unfold table_get. rewrite Hown, Hproto.
  apply String.eqb_neq in Hk. rewrite Hk.
  unfold is_object_prototype_method. by rewrite bool_decide_eq_false_2.
Qed.

Section unknown_devices.
Implicit Types (t : table) (s : state) (k id : string).

Lemma untouched_get t k :
  untouched t k → ¬ inherited_name k → table_get t k = VUndefined.
Proof.
  intros (Hown & _ & Hproto) Hk. apply table_get_undefined; [done..| |].
  - intros ->. apply Hk. by left.
  - intros Hm. apply Hk. by right.
Qed.

Lemma untouched_get_proto t k :
  untouched t k → table_get t "__proto__" = VObjectPrototype.
Proof. intros (_ & Hown & Hproto). unfold table_get. by rewrite Hown, Hproto. Qed.

Lemma table_set_untouched t k k' r :
  k' ≠ k → k' ≠ "__proto__" → untouched t k → untouched (table_set t k' r) k.
Proof.
  intros Hk Hp (Hown & Hownp & Hproto). unfold table_set.
  destruct (reaches_proto_setter t k') eqn:E.
  - by apply reaches_proto_setter_key in E.
  - split_and!; simpl; [| |done]; by rewrite lookup_insert_ne.
Qed.

Lemma init_untouched_data boot id :
  id ≠ DEFAULT_DEVICE_ID → untouched (deviceData (init boot)) id.
Proof.
  intros Hid. split_and!; [|done..].
  change (<[DEFAULT_DEVICE_ID := default_device_record boot]>
            (∅ : gmap string obj) !! id = None).
  by rewrite lookup_insert_ne.
Qed.

Lemma init_untouched_commands boot id : untouched (commands (init boot)) id.
Proof. done. Qed.

Lemma handle_untouched_data now req s id :
  ¬ is_post_data_for id req → ¬ is_post_data_for "__proto__" req →
  untouched (deviceData s) id → untouched (deviceData (handle now req s).2) id.
Proof.
  intros Hid Hp H. destruct req as [id' d|id'|id'|id']; simpl.
  - unfold post_data. destruct (isValidGpsData _) as [[]|]; simpl; [|done..].
    apply table_set_untouched; [| |done]; intros ->; [apply Hid|apply Hp];
      by exists d.
  - by rewrite get_data_state.
  - done.
  - unfold get_command. cbv zeta. by destruct (truthy (field _ _)).
Qed.

Lemma get_command_untouched now id id' s :
  ¬ inherited_name id →
  untouched (commands s) id → untouched (commands (get_command now id' s).2) id.
Proof.
  intros Hid H.
  destruct (decide (id' = id)) as [->|Hne].
  { rewrite get_command_unknown; [done|]. by apply untouched_get. }
  destruct (decide (id' = "__proto__")) as [->|Hp].
  { unfold get_command. by rewrite (untouched_get_proto _ _ H). }
  unfold get_command. cbv zeta. destruct (truthy (field _ _)); [|done].
  by apply table_set_untouched.
Qed.

Lemma handle_untouched_commands now req s id :
  ¬ inherited_name id →
  req ≠ PostCommand id → req ≠ PostCommand "__proto__" →
  untouched (commands s) id → untouched (commands (handle now req s).2) id.
Proof.
  intros Hname Hid Hp H. destruct req as [id' d|id'|id'|id']; simpl.
  - unfold post_data. by destruct (isValidGpsData _) as [[]|].
  - by rewrite get_data_state.
  - apply table_set_untouched; [| |done]; congruence.
  - by apply get_command_untouched.
Qed.

(** A deviceId that is not an inherited name, was not seeded and was never
    reported (nor was [__proto__]) reads as the placeholder. *)
Lemma never_reported_placeholder boot evs now id :
  ¬ inherited_name id → id ≠ DEFAULT_DEVICE_ID →
  Forall (λ e, ¬ is_post_data_for id e.2 ∧ ¬ is_post_data_for "__proto__" e.2)
    evs →
  handle now (GetData id) (reached boot evs)
  = (Response 200 no_data, reached boot evs).
Proof.
  intros Hname Hseed Hevs. simpl. apply get_data_unknown, untouched_get; [|done].
  unfold reached. generalize (init_untouched_data boot id Hseed).
  generalize (init boot).
  induction Hevs as [|[t req] evs [H1 H2] _ IH]; intros s Hs; [done|].
  rewrite run_cons. simpl. apply IH. by apply handle_untouched_data.
Qed.

(** A deviceId that is not an inherited name and for which no command was
    ever issued (nor for [__proto__]) polls the default [{buzzer: false}],
    and the poll leaves the state as it was. *)
Lemma never_issued_default boot evs now id :
  ¬ inherited_name id →
  Forall (λ e, e.2 ≠ PostCommand id ∧ e.2 ≠ PostCommand "__proto__") evs →
  handle now (GetCommand id) (reached boot evs)
  = (Response 200 default_command, reached boot evs).
Proof.
  intros Hname Hevs. simpl. apply get_command_unknown, untouched_get; [|done].
  unfold reached. generalize (init_untouched_commands boot id).
  generalize (init boot).
  induction Hevs as [|[t req] evs [H1 H2] _ IH]; intros s Hs; [done|].
  rewrite run_cons. simpl. apply IH. by apply handle_untouched_commands.
Qed.

End unknown_devices.

(** C4.  [GET /api/data/toString] on the server as it starts, where no
    record was ever stored under [toString]: [deviceData["toString"]] is
    the function inherited from [Object.prototype], which is truthy, so
    the handler answers 200 with that function as body instead of the
    placeholder; the body has no [latitude] (it is not [null]) and no
    [message]. *)
Theorem C4_get_data_inherited_key boot now :
  own (deviceData (init boot)) !! "toString" = None
  ∧ handle now (GetData "toString") (init boot)
    = (Response 200 (VBuiltin "toString"), init boot)
  ∧ field (VBuiltin "toString") "latitude" = VUndefined
  ∧ field (VBuiltin "toString") "message" = VUndefined.
Proof. by vm_compute. Qed.

(** C6.  [GET /api/command/toString] on the server as it starts, where
    no command record is stored under [toString]:
    [commands["toString"]] is the function inherited from
    [Object.prototype], which is truthy, so the default [{buzzer: false}]
    is not taken and the handler answers 200 with that function as body,
    which has no [buzzer] flag; the state is left as it was. *)
Theorem C6_get_command_inherited_key boot now :
  own (commands (init boot)) !! "toString" = None
  ∧ handle now (GetCommand "toString") (init boot)
    = (Response 200 (VBuiltin "toString"), init boot)
  ∧ field (VBuiltin "toString") "buzzer" = VUndefined.
Proof. by vm_compute. Qed.

(** ** The shape of the bodies *)

(** C7, as stated, fails: the report of the specification's example,
    made at clock reading 1000 and read back, has no member [receivedAt];
    the server's time is under [timestamp]. *)
Lemma C7_no_receivedAt :
  status (read_after_report 1000 "dev1" example_body [] 2000 (init 0)) = 200
  ∧ field (sent (read_after_report 1000 "dev1" example_body [] 2000 (init 0)))
      "receivedAt" = VUndefined
  ∧ field (sent (read_after_report 1000 "dev1" example_body [] 2000 (init 0)))
      "timestamp" = VJson (jtime 1000).
Proof. by vm_compute. Qed.

(** C7, amended.  In every state the server can reach, when [deviceData]
    holds a record for deviceId (as an own entry, or, for the deviceId
    [__proto__] when the table has no own entry of that name, as prototype
    of the table, the record having no [__proto__] member),
    [GET /api/data/deviceId] answers 200 with that record and changes
    nothing.  The record is the one seeded at start-up or the record
    [{...body, timestamp}] of an accepted report of the run: it has a
    numeric [latitude], a numeric [longitude], an [rssi], and the
    server-assigned time under the field name [timestamp] (a clock reading
    of the run); a member [receivedAt] is there only if an accepted report
    of the run carried it, with the value posted. *)
Theorem C7_telemetry_body_shape boot evs now id r :
  holds_record (deviceData (reached boot evs)) id r →
  handle now (GetData id) (reached boot evs)
  = (Response 200 (VJson (JObj r)), reached boot evs)
  ∧ (∃ q, r !! "latitude" = Some (JNum q))
  ∧ (∃ q, r !! "longitude" = Some (JNum q))
  ∧ is_Some (r !! "rssi")
  ∧ (∃ t, t ∈ clock_of boot evs ∧ r !! "timestamp" = Some (jtime t))
  ∧ reported_in boot evs r
  ∧ (∀ j, r !! "receivedAt" = Some j →
       ∃ t id' data, (t, PostData id' data) ∈ evs
                     ∧ isValidGpsData data = Some true
                     ∧ member data "receivedAt" = Some j).
Proof.
  intros H.
  pose proof (table_Forall_holds _ _ _ _ (reached_reported boot evs) H) as Hrep.
  destruct (reached_inv boot evs) as [Hd _].
  destruct (table_Forall_holds _ _ _ _ Hd H) as (Hlat & Hlon & Hrssi & Hts).
  split_and!; [|done..|].
  - simpl. by apply get_data_holds.
  - intros j Hj. destruct Hrep as [->|(t & id' & data & Hin & Hv & ->)];
      [done|].
    exists t, id', data. split_and!; [done..|].
    rewrite telemetry_record_other in Hj by done.
    by destruct (valid_body_is_object _ Hv) as [o ->].
Qed.

Lemma C7_telemetry_body_shape_witness :
  holds_record (deviceData (reached 0 [(1000, PostData "dev1" example_body)]))
    "dev1" (telemetry_record 1000 example_body)
  ∧ handle 2000 (GetData "dev1") (reached 0 [(1000, PostData "dev1" example_body)])
    = (Response 200 (VJson (JObj (telemetry_record 1000 example_body))),
       reached 0 [(1000, PostData "dev1" example_body)]).
Proof.
  assert (holds_record
            (deviceData (reached 0 [(1000, PostData "dev1" example_body)]))
            "dev1" (telemetry_record 1000 example_body)) as H.
  { left. reflexivity. }
  split; [exact H|].
  exact (proj1 (C7_telemetry_body_shape 0 _ 2000 "dev1" _ H)).
Defined.

(** C8, as stated, fails: the poll that follows an issue made at clock
    reading 1000 answers with a record that has neither [buzzerActive]
    nor [issuedAt]; the flag is under [buzzer] and the time under
    [timestamp]. *)
Lemma C8_no_buzzerActive :
  field (sent (first_poll 1000 "dev1" [] 2000 (init 0)).1) "buzzerActive"
  = VUndefined
  ∧ field (sent (first_poll 1000 "dev1" [] 2000 (init 0)).1) "issuedAt"
    = VUndefined
  ∧ field (sent (first_poll 1000 "dev1" [] 2000 (init 0)).1) "buzzer"
    = VJson (JBool true)
  ∧ field (sent (first_poll 1000 "dev1" [] 2000 (init 0)).1) "timestamp"
    = VJson (jtime 1000).
Proof. by vm_compute. Qed.

(** C8, amended.  In every state the server can reach, the body of
    [GET /api/command/deviceId] has the shape [{buzzer, timestamp?}] in
    these two cases: when [commands] holds a record for deviceId (as an
    own entry, or, for the deviceId [__proto__] when the table has no own
    entry of that name, as prototype of the table, the record having no
    [__proto__] member) the body is that record, which has exactly a
    boolean [buzzer] and the server-assigned time under [timestamp]; when
    the lookup [commands[deviceId]] gives [undefined] the body is
    [{buzzer: false}], without [timestamp].  The only other case is that
    the lookup finds an inherited value (a method of [Object.prototype],
    [Object.prototype] itself, or a boolean or number member of a record
    installed as prototype), about which nothing is stated. *)
Theorem C8_command_body_shape boot evs now id :
  (∀ r, holds_record (commands (reached boot evs)) id r →
     (handle now (GetCommand id) (reached boot evs)).1
     = Response 200 (VJson (JObj r))
     ∧ ∃ b t, t ∈ clock_of boot evs
         ∧ r !! "buzzer" = Some (JBool b)
         ∧ r !! "timestamp" = Some (jtime t)
         ∧ ∀ k, k ≠ "buzzer" → k ≠ "timestamp" → r !! k = None)
  ∧ (table_get (commands (reached boot evs)) id = VUndefined →
     (handle now (GetCommand id) (reached boot evs)).1
     = Response 200 default_command
     ∧ field default_command "buzzer" = VJson (JBool false)
     ∧ field default_command "timestamp" = VUndefined)
  ∧ ((∃ r, holds_record (commands (reached boot evs)) id r)
     ∨ table_get (commands (reached boot evs)) id = VUndefined
     ∨ is_inherited_value (table_get (commands (reached boot evs)) id)).
Proof.
  destruct (reached_inv boot evs) as [_ Hc].
  split_and!.
  - intros r H. split.
    + simpl. by rewrite (get_command_holds _ _ _ _ H).
    + destruct (table_Forall_holds _ _ _ _ Hc H) as (b & t & Ht & ->).
      exists b, t. split_and!; [done..|]. apply command_record_other.
  - intros H. simpl. by rewrite get_command_unknown.
  - destruct Hc as [_ Hp]. unfold holds_record, table_get.
    destruct (own (commands (reached boot evs)) !! id) as [r|] eqn:Eown;
      [left; eauto|].
    destruct (proto (commands (reached boot evs))) as [p|] eqn:Eproto.
    + destruct (Hp p eq_refl) as (b & t & _ & ->).
      destruct (command_record b t !! id) as [j|] eqn:Ej.
      { right; right. by apply command_record_lookup in Ej as [-> | ->]. }
      destruct (String.eqb id "__proto__") eqn:Eid.
      { apply String.eqb_eq in Eid as ->. left. eauto 10. }
      destruct (is_object_prototype_method id); [right; right|right; left];
        done.
    + destruct (String.eqb id "__proto__"); [by right; right|].
      destruct (is_object_prototype_method id); [right; right|right; left];
        done.
Qed.

Lemma C8_command_body_shape_witness :
  holds_record (commands (reached 0 [(1000, PostCommand "dev1")])) "dev1"
    (command_record true 1000)
  ∧ (handle 2000 (GetCommand "dev1") (reached 0 [(1000, PostCommand "dev1")])).1
    = Response 200 (VJson (JObj (command_record true 1000)))
  ∧ table_get (commands (reached 0 [(1000, PostCommand "dev1")])) "dev2"
    = VUndefined
  ∧ (handle 2000 (GetCommand "dev2") (reached 0 [(1000, PostCommand "dev1")])).1
    = Response 200 default_command.
Proof.
  assert (holds_record (commands (reached 0 [(1000, PostCommand "dev1")]))
            "dev1" (command_record true 1000)) as Hheld.
  { left. reflexivity. }
  assert (table_get (commands (reached 0 [(1000, PostCommand "dev1")])) "dev2"
          = VUndefined) as Hnone.
  { reflexivity. }
  split; [exact Hheld|]. split.
  { exact (proj1 (proj1 (C8_command_body_shape 0 _ 2000 "dev1") _ Hheld)). }
  split; [exact Hnone|].
  exact (proj1 (proj1 (proj2 (C8_command_body_shape 0 _ 2000 "dev2")) Hnone)).
Defined.

(** C10, as stated, fails: a body that passes validation and carries the
    extra field [timestamp: 5] is stored with the server's clock reading
    under [timestamp], and the read returns that, not the posted 5. *)
Lemma C10_posted_timestamp_replaced :
  isValidGpsData stamped_body = Some true
  ∧ member stamped_body "timestamp" = Some (JNum 5)
  ∧ field (sent (read_after_report 1000 "dev1" stamped_body [] 2000 (init 0)))
      "timestamp" = VJson (jtime 1000)
  ∧ jtime 1000 ≠ JNum 5.
Proof. split_and!; [by vm_compute..|discriminate]. Qed.

(** C10, amended.  [POST /api/data/deviceId] stores the whole body: for
    every body that passes validation, every member of the body other
    than [timestamp] is in the record that the next
    [GET /api/data/deviceId] returns, with the posted value, and the
    record has no other member than these and [timestamp], which holds
    the server's clock reading of the report.  (Stated for every pair of
    deviceId and body but [__proto__] with a body that has a [__proto__]
    member.) *)
Theorem C10_whole_body_stored s now id data mid now' :
  isValidGpsData data = Some true →
  id ≠ "__proto__" ∨ spread data !! "__proto__" = None →
  Forall (λ e, ¬ is_post_data_for id e.2) mid →
  ∃ r, read_after_report now id data mid now' s = Response 200 (VJson (JObj r))
       ∧ (∀ k, k ≠ "timestamp" → r !! k = spread data !! k)
       ∧ r !! "timestamp" = Some (jtime now).
Proof.
  intros Hv Hid Hmid. exists (telemetry_record now data).
  unfold read_after_report. rewrite post_data_then_get by done.
  split_and!; [done| |apply telemetry_record_timestamp].
  intros k Hk. by apply telemetry_record_other.
Qed.

Lemma C10_whole_body_stored_witness :
  isValidGpsData stamped_body = Some true
  ∧ ("dev1" ≠ "__proto__" ∨ spread stamped_body !! "__proto__" = None)
  ∧ Forall (λ e : Z * request, ¬ is_post_data_for "dev1" e.2)
      [(1500, PostData "dev2" example_body)]
  ∧ ∃ r, read_after_report 1000 "dev1" stamped_body
           [(1500, PostData "dev2" example_body)] 2000 (init 0)
         = Response 200 (VJson (JObj r))
         ∧ (∀ k, k ≠ "timestamp" → r !! k = spread stamped_body !! k)
         ∧ r !! "timestamp" = Some (jtime 1000).
Proof.
  assert (isValidGpsData stamped_body = Some true) as Hv by reflexivity.
  assert ("dev1" ≠ "__proto__" ∨ spread stamped_body !! "__proto__" = None)
    as Hid by (left; discriminate).
  assert (Forall (λ e : Z * request, ¬ is_post_data_for "dev1" e.2)
            [(1500, PostData "dev2" example_body)]) as Hmid.
  { repeat constructor. intros [d H]. discriminate H. }
  split; [exact Hv|]. split; [exact Hid|]. split; [exact Hmid|].
  exact (C10_whole_body_stored (init 0) 1000 "dev1" stamped_body _ 2000
           Hv Hid Hmid).
Defined.

(** ** Further properties of the handlers *)

(** *** What each kind of request can write *)

Lemma handle_deviceData_unchanged now req s :
  is_accepted_report req = false →
  deviceData (handle now req s).2 = deviceData s.
Proof.
  intros H. destruct req as [id d|id|id|id]; simpl in *.
  - unfold post_data. by destruct (isValidGpsData d) as [[]|].
  - by rewrite get_data_state.
  - done.
  - unfold get_command. cbv zeta. by destruct (truthy (field _ _)).
Qed.

Lemma handle_commands_unchanged now req s :
  is_command_request req = false →
  commands (handle now req s).2 = commands s.
Proof.
  intros H. destruct req as [id d|id|id|id]; simpl in *; try done.
  - unfold post_data. by destruct (isValidGpsData _) as [[]|].
  - by rewrite get_data_state.
Qed.

(** Only a report that passes validation writes to [deviceData]: polls,
    issues, reads and rejected reports, for any deviceId and in any number,
    leave the telemetry table exactly as it was. *)
Theorem deviceData_changed_by_accepted_reports_only evs s :
  Forall (λ e, is_accepted_report e.2 = false) evs →
  deviceData (run evs s).2 = deviceData s.
Proof.
  intros Hevs. revert s.
  induction Hevs as [|[now req] evs Hreq _ IH]; intros s; [done|].
  rewrite run_cons. simpl. rewrite IH. by apply handle_deviceData_unchanged.
Qed.

Lemma deviceData_changed_by_accepted_reports_only_witness :
  Forall (λ e : Z * request, is_accepted_report e.2 = false)
    [(1, PostData "dev1" abc_body); (2, PostCommand "dev1");
     (3, GetCommand "dev1"); (4, GetData "dev1")]
  ∧ deviceData
      (run [(1, PostData "dev1" abc_body); (2, PostCommand "dev1");
            (3, GetCommand "dev1"); (4, GetData "dev1")] (init 0)).2
    = deviceData (init 0).
Proof.
  assert (Forall (λ e : Z * request, is_accepted_report e.2 = false)
            [(1, PostData "dev1" abc_body); (2, PostCommand "dev1");
             (3, GetCommand "dev1"); (4, GetData "dev1")]) as H.
  { repeat constructor. }
  split; [exact H|].
  exact (deviceData_changed_by_accepted_reports_only _ (init 0) H).
Defined.

(** Only the two command handlers write to [commands]: reports and reads
    of telemetry, accepted or not, leave the command table exactly as it
    was. *)
Theorem commands_changed_by_command_requests_only evs s :
  Forall (λ e, is_command_request e.2 = false) evs →
  commands (run evs s).2 = commands s.
Proof.
  intros Hevs. revert s.
  induction Hevs as [|[now req] evs Hreq _ IH]; intros s; [done|].
  rewrite run_cons. simpl. rewrite IH. by apply handle_commands_unchanged.
Qed.

Lemma commands_changed_by_command_requests_only_witness :
  Forall (λ e : Z * request, is_command_request e.2 = false)
    [(2, PostData "dev1" example_body); (3, GetData "dev1")]
  ∧ commands
      (run [(2, PostData "dev1" example_body); (3, GetData "dev1")]
         (handle 1 (PostCommand "dev1") (init 0)).2).2
    = commands (handle 1 (PostCommand "dev1") (init 0)).2.
Proof.
  assert (Forall (λ e : Z * request, is_command_request e.2 = false)
            [(2, PostData "dev1" example_body); (3, GetData "dev1")]) as H.
  { repeat constructor. }
  split; [exact H|].
  exact (commands_changed_by_command_requests_only _ _ H).
Defined.

(** *** Devices do not see each other's requests *)

Lemma reaches_proto_setter_other t k :
  k ≠ "__proto__" → reaches_proto_setter t k = false.
Proof.
  intros Hk. unfold reaches_proto_setter.
  apply String.eqb_neq in Hk. by rewrite Hk.
Qed.

Lemma table_get_set_other t k r id :
  k ≠ id → reaches_proto_setter t k = false →
  table_get (table_set t k r) id = table_get t id.
Proof.
  intros Hne Hset. unfold table_set. rewrite Hset.
  unfold table_get. simpl. by rewrite lookup_insert_ne.
Qed.

Lemma get_data_response id s :
  (get_data id s).1
  = Response 200 (if truthy (table_get (deviceData s) id)
                  then table_get (deviceData s) id else no_data).
Proof. unfold get_data. cbv zeta. by destruct (truthy _). Qed.

Lemma get_command_response now id s :
  (get_command now id s).1
  = Response 200 (if truthy (table_get (commands s) id)
                  then table_get (commands s) id else default_command).
Proof. unfold get_command. cbv zeta. by destruct (truthy (field _ _)). Qed.

Lemma handle_isolated now req s id :
  target req ≠ id → target req ≠ "__proto__" →
  table_get (deviceData (handle now req s).2) id = table_get (deviceData s) id
  ∧ table_get (commands (handle now req s).2) id = table_get (commands s) id.
Proof.
  intros Hid Hp. destruct req as [k d|k|k|k]; simpl in *.
  - unfold post_data. destruct (isValidGpsData _) as [[]|]; simpl; [|done..]. split; [|done].
    by apply table_get_set_other, reaches_proto_setter_other.
  - by rewrite get_data_state.
  - split; [done|].
    by apply table_get_set_other, reaches_proto_setter_other.
  - unfold get_command. cbv zeta.
    destruct (truthy (field _ _)); simpl; [|done]. split; [done|].
    by apply table_get_set_other, reaches_proto_setter_other.
Qed.

(** Requests about other devices, none of them about the deviceId
    [__proto__], change nothing of what a device reads: its telemetry read
    and its command poll are answered after them as they would have been
    before them. *)
Theorem device_isolation evs s id now :
  Forall (λ e, target e.2 ≠ id ∧ target e.2 ≠ "__proto__") evs →
  (handle now (GetData id) (run evs s).2).1 = (handle now (GetData id) s).1
  ∧ (handle now (GetCommand id) (run evs s).2).1
    = (handle now (GetCommand id) s).1.
Proof.
  intros Hevs. simpl. rewrite !get_data_response, !get_command_response.
  assert (table_get (deviceData (run evs s).2) id = table_get (deviceData s) id
          ∧ table_get (commands (run evs s).2) id = table_get (commands s) id)
    as [-> ->]; [|done].
  revert s. induction Hevs as [|[t req] evs [Hid Hp] _ IH]; intros s; [done|].
  rewrite run_cons. simpl. destruct (IH (handle t req s).2) as [-> ->].
  by apply handle_isolated.
Qed.

Lemma device_isolation_witness :
  Forall (λ e : Z * request, target e.2 ≠ "dev1" ∧ target e.2 ≠ "__proto__")
    [(2, PostData "dev2" example_body); (3, PostCommand "dev2");
     (4, GetCommand "dev2")]
  ∧ (handle 5 (GetCommand "dev1")
       (run [(2, PostData "dev2" example_body); (3, PostCommand "dev2");
             (4, GetCommand "dev2")]
          (handle 1 (PostCommand "dev1") (init 0)).2).2).1
    = (handle 5 (GetCommand "dev1") (handle 1 (PostCommand "dev1") (init 0)).2).1.
Proof.
  assert (Forall (λ e : Z * request,
                    target e.2 ≠ "dev1" ∧ target e.2 ≠ "__proto__")
            [(2, PostData "dev2" example_body); (3, PostCommand "dev2");
             (4, GetCommand "dev2")]) as H.
  { repeat constructor; discriminate. }
  split; [exact H|].
  exact (proj2 (device_isolation _ (handle 1 (PostCommand "dev1") (init 0)).2
                  "dev1" 5 H)).
Defined.

(** *** The latest report wins *)

Lemma table_set_overwrite t k r1 r2 :
  k ≠ "__proto__" ∨ r1 !! "__proto__" = None →
  table_set (table_set t k r1) k r2 = table_set t k r2.
Proof.
  intros [Hk|Hr]; [|by apply table_set_twice].
  unfold table_set. rewrite !reaches_proto_setter_other by done.
  simpl. by rewrite insert_insert_eq.
Qed.

(** A report that passes validation replaces whatever an earlier report to
    the same deviceId left: the state after the two reports is the state
    the later one alone produces, so nothing of the earlier body is merged
    or kept.  (The earlier report may be valid or not; stated for every
    deviceId but [__proto__] combined with an earlier body that has a
    [__proto__] member.) *)
Theorem later_report_replaces_earlier s t1 t2 id d1 d2 :
  isValidGpsData d2 = Some true →
  id ≠ "__proto__" ∨ spread d1 !! "__proto__" = None →
  (handle t2 (PostData id d2) (handle t1 (PostData id d1) s).2).2
  = (handle t2 (PostData id d2) s).2.
Proof.
  intros Hv2 Hid. simpl. destruct (isValidGpsData d1) as [[]|] eqn:Hv1.
  - rewrite !post_data_valid by done. simpl. f_equal.
    apply table_set_overwrite. destruct Hid as [Hid|Hid]; [by left|right].
    by rewrite telemetry_record_other.
  - by rewrite (post_data_invalid t1).
  - by rewrite (post_data_throws t1).
Qed.

Lemma later_report_replaces_earlier_witness :
  isValidGpsData example_body = Some true
  ∧ ("dev1" ≠ "__proto__" ∨ spread stamped_body !! "__proto__" = None)
  ∧ (handle 2 (PostData "dev1" example_body)
       (handle 1 (PostData "dev1" stamped_body) (init 0)).2).2
    = (handle 2 (PostData "dev1" example_body) (init 0)).2.
Proof.
  assert (isValidGpsData example_body = Some true) as Hv by reflexivity.
  assert ("dev1" ≠ "__proto__" ∨ spread stamped_body !! "__proto__" = None)
    as Hid by (left; discriminate).
  split; [exact Hv|]. split; [exact Hid|].
  exact (later_report_replaces_earlier (init 0) 1 2 "dev1" stamped_body
           example_body Hv Hid).
Defined.

(** *** The time stamps a poll shows *)

Lemma handle_cleared_at now req id t s :
  req ≠ PostCommand id →
  holds_record (commands s) id (command_record false t) →
  holds_record (commands (handle now req s).2) id (command_record false t)
  ∧ (req = GetCommand id →
     (handle now req s).1
     = Response 200 (VJson (JObj (command_record false t)))).
Proof.
  intros Hreq H.
  destruct req as [id' d|id'|id'|id'].
  - split; [|done]. apply handle_commands_frame; [|done]. by intros [|].
  - split; [|done]. apply handle_commands_frame; [|done]. by intros [|].
  - split; [|done]. apply handle_commands_frame; [|done].
    intros [|]; congruence.
  - destruct (decide (id' = id)) as [->|Hne].
    + simpl. by rewrite (get_command_holds _ _ _ _ H).
    + split; [|congruence]. apply handle_commands_frame; [|done].
      intros [|]; congruence.
Qed.

Lemma run_cleared_at evs id t s :
  Forall (λ e, e.2 ≠ PostCommand id) evs →
  holds_record (commands s) id (command_record false t) →
  ∀ i now, evs !! i = Some (now, GetCommand id) →
    (run evs s).1 !! i
    = Some (Response 200 (VJson (JObj (command_record false t)))).
Proof.
  intros Hevs. revert s.
  induction Hevs as [|[now' req] evs Hreq _ IH]; intros s H i now Hi; [done|].
  rewrite run_cons.
  destruct (handle_cleared_at now' req id t s Hreq H) as [H' Hres].
  destruct i as [|i]; simpl in *.
  - injection Hi as -> ->. by rewrite Hres.
  - eapply IH; eauto.
Qed.

(** The poll that delivers a command answers with the record of the
    issue, [{buzzer: true, timestamp: <clock of the POST>}]; every later
    poll, until the next issue, answers with
    [{buzzer: false, timestamp: <clock of the delivering poll>}]: once
    cleared, the time stamp is that of the read that cleared the flag, not
    that of the issue. *)
Theorem poll_time_stamps s now id mid now' rest :
  Forall (λ e, ¬ is_command_for id e.2) mid →
  Forall (λ e, e.2 ≠ PostCommand id) rest →
  (first_poll now id mid now' s).1
  = Response 200 (VJson (JObj (command_record true now)))
  ∧ ∀ i t, rest !! i = Some (t, GetCommand id) →
      (run rest (first_poll now id mid now' s).2).1 !! i
      = Some (Response 200 (VJson (JObj (command_record false now')))).
Proof.
  intros Hmid Hrest. unfold first_poll.
  assert (holds_record
            (commands (run mid (handle now (PostCommand id) s).2).2) id
            (command_record true now)) as Hpending.
  { apply run_commands_frame; [done|]. apply post_command_holds. }
  split.
  { simpl. by rewrite (get_command_holds _ _ _ _ Hpending). }
  apply run_cleared_at; [done|].
  exact (proj2 (get_command_pending now' _ _ _ Hpending)).
Qed.

Lemma poll_time_stamps_witness :
  Forall (λ e : Z * request, ¬ is_command_for "dev1" e.2) [(11, GetData "dev1")]
  ∧ Forall (λ e : Z * request, e.2 ≠ PostCommand "dev1")
      [(14, GetCommand "dev1")]
  ∧ (first_poll 10 "dev1" [(11, GetData "dev1")] 13 (init 0)).1
    = Response 200 (VJson (JObj (command_record true 10))).
Proof.
  assert (Forall (λ e : Z * request, ¬ is_command_for "dev1" e.2)
            [(11, GetData "dev1")]) as Hmid.
  { repeat constructor; intros [H|H]; discriminate H. }
  assert (Forall (λ e : Z * request, e.2 ≠ PostCommand "dev1")
            [(14, GetCommand "dev1")]) as Hrest.
  { repeat constructor; intros H; discriminate H. }
  split; [exact Hmid|]. split; [exact Hrest|].
  exact (proj1 (poll_time_stamps (init 0) 10 "dev1" _ 13 _ Hmid Hrest)).
Defined.

(** *** The placeholder device *)

(** The record written when the module loads is what
    [GET /api/data/VX0dFVvmu1QSpQdvj1p74iyfx9n1] answers, with the clock
    reading of the start as time stamp, after any run in which no report
    is made for that deviceId; the read changes nothing. *)
Theorem default_device_read boot evs now :
  Forall (λ e, ¬ is_post_data_for DEFAULT_DEVICE_ID e.2) evs →
  handle now (GetData DEFAULT_DEVICE_ID) (reached boot evs)
  = (Response 200 (VJson (JObj (default_device_record boot))),
     reached boot evs).
Proof.
  intros Hevs. simpl. apply get_data_holds.
  apply run_data_frame; [done|]. by left.
Qed.

Lemma default_device_read_witness :
  Forall (λ e : Z * request, ¬ is_post_data_for DEFAULT_DEVICE_ID e.2)
    [(1, PostData "dev1" example_body); (2, PostCommand DEFAULT_DEVICE_ID)]
  ∧ handle 3 (GetData DEFAULT_DEVICE_ID)
      (reached 0 [(1, PostData "dev1" example_body);
                  (2, PostCommand DEFAULT_DEVICE_ID)])
    = (Response 200 (VJson (JObj (default_device_record 0))),
       reached 0 [(1, PostData "dev1" example_body);
                  (2, PostCommand DEFAULT_DEVICE_ID)]).
Proof.
  assert (Forall (λ e : Z * request, ¬ is_post_data_for DEFAULT_DEVICE_ID e.2)
            [(1, PostData "dev1" example_body);
             (2, PostCommand DEFAULT_DEVICE_ID)]) as H.
  { repeat constructor; intros [d Hd]; discriminate Hd. }
  split; [exact H|].
  exact (default_device_read 0 _ 3 H).
Defined.

(** *** Nothing is ever removed *)

Lemma table_set_own_mono t k r :
  dom (own t) ⊆ dom (own (table_set t k r)).
Proof.
  unfold table_set. destruct (reaches_proto_setter t k); simpl; [done|].
  rewrite dom_insert_L. set_solver.
Qed.

Lemma handle_own_mono now req s :
  dom (own (deviceData s)) ⊆ dom (own (deviceData (handle now req s).2))
  ∧ dom (own (commands s)) ⊆ dom (own (commands (handle now req s).2)).
Proof.
  destruct req as [id d|id|id|id]; simpl.
  - unfold post_data. destruct (isValidGpsData _) as [[]|]; simpl; [|done..].
    split; [apply table_set_own_mono|done].
  - by rewrite get_data_state.
  - split; [done|apply table_set_own_mono].
  - unfold get_command. cbv zeta. destruct (truthy (field _ _)); simpl; [|done].
    split; [done|apply table_set_own_mono].
Qed.

(** No handler removes an entry: the deviceIds that have an entry of their
    own in [deviceData], and those that have one in [commands], still have
    one after any run.  The tables only grow. *)
Theorem entries_never_removed evs s :
  dom (own (deviceData s)) ⊆ dom (own (deviceData (run evs s).2))
  ∧ dom (own (commands s)) ⊆ dom (own (commands (run evs s).2)).
Proof.
  revert s. induction evs as [|[now req] evs IH]; intros s; [done|].
  rewrite run_cons. simpl.
  destruct (handle_own_mono now req s) as [Hd Hc].
  destruct (IH (handle now req s).2) as [Hd' Hc'].
  split; etrans; eauto.
Qed.

(** *** A poll writes only when it delivers *)

Lemma table_get_record t k r :
  table_get t k = VJson (JObj r) →
  own t !! k = Some r
  ∨ ∃ p, proto t = Some p ∧ (p !! k = Some (JObj r) ∨ r = p).
Proof.
  unfold table_get. destruct (own t !! k) as [r0|]; [intros [= ->]; by left|].
  destruct (proto t) as [p|].
  - destruct (p !! k) as [j|] eqn:Ep.
    + intros [= ->]. right. eauto.
    + destruct (String.eqb k "__proto__"); [intros [= ->]; right; eauto|].
      by destruct (is_object_prototype_method k).
  - destruct (String.eqb k "__proto__"); [done|].
    by destruct (is_object_prototype_method k).
Qed.

Lemma table_get_command_shaped clock t k r :
  table_Forall (command_shaped clock) t →
  table_get t k = VJson (JObj r) →
  command_shaped clock r.
Proof.
  intros [Hown Hproto] [H | (p & Hp & [H | ->])]%table_get_record.
  - by apply (Hown k).
  - destruct (Hproto p Hp) as (b & t' & _ & ->).
    by apply command_record_lookup in H as [|].
  - by apply Hproto.
Qed.

(** In every state the server can reach, a poll that does not deliver
    (its body is anything but a record with [buzzer] true) writes nothing:
    the state after it is the state before it. *)
Theorem idle_poll_changes_nothing boot evs now id :
  delivers (handle now (GetCommand id) (reached boot evs)).1 = false →
  (handle now (GetCommand id) (reached boot evs)).2 = reached boot evs.
Proof.
  simpl. rewrite get_command_response. unfold get_command. cbv zeta.
  destruct (reached_inv boot evs) as [_ Hc].
  destruct (truthy (table_get (commands (reached boot evs)) id)) eqn:Ev; [|done].
  intros Hidle.
  destruct (truthy (field _ "buzzer")) eqn:Ef; [exfalso|done].
  destruct (table_get (commands (reached boot evs)) id) as [|[]| |] eqn:Eg;
    try discriminate Ef.
  destruct (table_get_command_shaped _ _ _ _ Hc Eg) as (b & t & _ & ->).
  destruct b; [discriminate Hidle|discriminate Ef].
Qed.

Lemma idle_poll_changes_nothing_witness :
  delivers
    (handle 3 (GetCommand "dev1")
       (reached 0 [(1, PostCommand "dev1"); (2, GetCommand "dev1")])).1 = false
  ∧ (handle 3 (GetCommand "dev1")
       (reached 0 [(1, PostCommand "dev1"); (2, GetCommand "dev1")])).2
    = reached 0 [(1, PostCommand "dev1"); (2, GetCommand "dev1")].
Proof.
  assert (delivers
            (handle 3 (GetCommand "dev1")
               (reached 0 [(1, PostCommand "dev1"); (2, GetCommand "dev1")])).1
          = false) as H by reflexivity.
  split; [exact H|].
  exact (idle_poll_changes_nothing 0 _ 3 "dev1" H).
Defined.

(** *** At most one delivery per issue *)

Lemma pending_set_same t id now :
  delivers
    (Response 200 (table_get (table_set t id (command_record false now)) id))
  = false.
Proof.
  rewrite (holds_record_get _ _ (command_record false now)); [done|].
  apply table_set_holds. by right.
Qed.

Lemma pending_set_other t k id b now :
  k ≠ id →
  delivers (Response 200 (table_get (table_set t k (command_record b now)) id))
  = true →
  delivers (Response 200 (table_get t id)) = true.
Proof.
  intros Hne. destruct (reaches_proto_setter t k) eqn:E.
  - pose proof (reaches_proto_setter_key _ _ E) as ->.
    unfold table_set. rewrite E. unfold table_get. simpl.
    destruct (own t !! id); [done|].
    destruct (command_record b now !! id) as [j|] eqn:Ej.
    + by apply command_record_lookup in Ej as [-> | ->].
    + assert (String.eqb id "__proto__" = false) as ->
        by (apply String.eqb_neq; congruence).
      by destruct (is_object_prototype_method id).
  - by rewrite table_get_set_other.
Qed.

Lemma delivers_truthy st v :
  delivers (Response st v) = true →
  truthy v = true ∧ truthy (field v "buzzer") = true.
Proof.
  unfold delivers. simpl. destruct v as [|[| | | | |r]| |]; try done. simpl.
  by destruct (r !! "buzzer") as [[|[]| | | |]|].
Qed.

Lemma get_command_delivery_step now id s :
  (Nat.b2n (delivers (get_command now id s).1)
   + Nat.b2n (pending id (get_command now id s).2)
   ≤ Nat.b2n (pending id s))%nat.
Proof.
  rewrite get_command_response. unfold get_command, pending. cbv zeta.
  destruct (truthy (table_get (commands s) id)) eqn:Ev.
  - destruct (truthy (field _ _)) eqn:Ef; simpl.
    + rewrite pending_set_same.
      destruct (delivers _); simpl; lia.
    + destruct (delivers _) eqn:Ed; [|simpl; lia].
      apply delivers_truthy in Ed as [_ Ed]. congruence.
  - change (truthy (field default_command "buzzer")) with false.
    change (delivers (Response 200 default_command)) with false.
    simpl. lia.
Qed.

Lemma handle_delivery_step now req id s :
  (Nat.b2n (is_poll_of id req && delivers (handle now req s).1)
   + Nat.b2n (pending id (handle now req s).2)
   ≤ Nat.b2n (is_issue_for id req) + Nat.b2n (pending id s))%nat.
Proof.
  assert (∀ s', (pending id s' = true → pending id s = true) →
                (Nat.b2n (pending id s') ≤ Nat.b2n (pending id s))%nat) as Hle.
  { intros s' H. destruct (pending id s'); [by rewrite H|simpl; lia]. }
  destruct req as [k d|k|k|k]; simpl.
  - apply Hle. unfold pending, post_data. by destruct (isValidGpsData _) as [[]|].
  - apply Hle. by rewrite get_data_state.
  - destruct (String.eqb k id) eqn:Ek.
    + match goal with |- (Nat.b2n ?b ≤ _)%nat => destruct b end; simpl; lia.
    + apply String.eqb_neq in Ek. simpl. apply Hle. unfold pending. simpl.
      by apply pending_set_other.
  - destruct (String.eqb k id) eqn:Ek.
    + apply String.eqb_eq in Ek as ->. simpl.
      pose proof (get_command_delivery_step now id s). lia.
    + apply String.eqb_neq in Ek. simpl. apply Hle.
      unfold pending, get_command. cbv zeta.
      destruct (truthy (field _ _)); simpl; [|done].
      by apply pending_set_other.
Qed.

Lemma delivery_budget evs id s :
  (deliveries id evs s + Nat.b2n (pending id (run evs s).2)
   ≤ issues id evs + Nat.b2n (pending id s))%nat.
Proof.
  revert s. induction evs as [|[now req] evs IH]; intros s; [simpl; lia|].
  rewrite run_cons. simpl.
  pose proof (handle_delivery_step now req id s) as Hstep.
  specialize (IH (handle now req s).2).
  destruct (handle now req s) as [res s1]. simpl in *. lia.
Qed.

Lemma init_not_pending boot id : pending id (init boot) = false.
Proof.
  unfold pending, table_get. simpl. rewrite lookup_empty.
  destruct (String.eqb id "__proto__"); [done|].
  by destruct (is_object_prototype_method id).
Qed.

(** From start-up, in any run and for every deviceId, the polls of the
    device that deliver the command (answer with a record whose [buzzer] is
    true) are at most as many as the [POST /api/command] made for that
    device: no issue is delivered twice, whatever else is requested in
    between. *)
Theorem deliveries_bounded_by_issues boot evs id :
  (deliveries id evs (init boot) ≤ issues id evs)%nat.
Proof.
  pose proof (delivery_budget evs id (init boot)) as H.
  rewrite init_not_pending in H. simpl in H. lia.
Qed.

(** *** Witnesses for the unknown devices *)

Lemma never_reported_placeholder_witness :
  ¬ inherited_name "dev9"
  ∧ "dev9" ≠ DEFAULT_DEVICE_ID
  ∧ Forall (λ e : Z * request,
              ¬ is_post_data_for "dev9" e.2 ∧ ¬ is_post_data_for "__proto__" e.2)
      [(1, PostData "dev1" example_body); (2, PostCommand "dev9")]
  ∧ handle 3 (GetData "dev9")
      (reached 0 [(1, PostData "dev1" example_body); (2, PostCommand "dev9")])
    = (Response 200 no_data,
       reached 0 [(1, PostData "dev1" example_body); (2, PostCommand "dev9")]).
Proof.
  assert (¬ inherited_name "dev9") as Hname.
  { intros [H|H]; [discriminate H|].
    exact (bool_decide_eq_false_1 ("dev9" ∈ object_prototype_methods)
             eq_refl H). }
  assert ("dev9" ≠ DEFAULT_DEVICE_ID) as Hseed by discriminate.
  assert (Forall (λ e : Z * request,
                    ¬ is_post_data_for "dev9" e.2
                    ∧ ¬ is_post_data_for "__proto__" e.2)
            [(1, PostData "dev1" example_body); (2, PostCommand "dev9")]) as H.
  { repeat constructor; intros [d Hd]; discriminate Hd. }
  split; [exact Hname|]. split; [exact Hseed|]. split; [exact H|].
  exact (never_reported_placeholder 0 _ 3 "dev9" Hname Hseed H).
Defined.

Lemma never_issued_default_witness :
  ¬ inherited_name "dev9"
  ∧ Forall (λ e : Z * request,
              e.2 ≠ PostCommand "dev9" ∧ e.2 ≠ PostCommand "__proto__")
      [(1, PostCommand "dev1"); (2, GetCommand "dev9")]
  ∧ handle 3 (GetCommand "dev9")
      (reached 0 [(1, PostCommand "dev1"); (2, GetCommand "dev9")])
    = (Response 200 default_command,
       reached 0 [(1, PostCommand "dev1"); (2, GetCommand "dev9")]).
Proof.
  assert (¬ inherited_name "dev9") as Hname.
  { intros [H|H]; [discriminate H|].
    exact (bool_decide_eq_false_1 ("dev9" ∈ object_prototype_methods)
             eq_refl H). }
  assert (Forall (λ e : Z * request,
                    e.2 ≠ PostCommand "dev9" ∧ e.2 ≠ PostCommand "__proto__")
            [(1, PostCommand "dev1"); (2, GetCommand "dev9")]) as H.
  { repeat constructor; discriminate. }
  split; [exact Hname|]. split; [exact H|].
  exact (never_issued_default 0 _ 3 "dev9" Hname H).
Defined.

(** *** What a report to [__proto__] does to the other deviceIds *)

(** A report to the deviceId [__proto__] that passes validation, made
    while [deviceData] still has [Object.prototype] as prototype, becomes
    the prototype of the table.  From then on the read of a deviceId [k]
    that has no entry of its own finds the member [k] of that report: when
    that member is truthy, [GET /api/data/k] answers with it (for
    [k = latitude], with the reported latitude) instead of the
    placeholder. *)
Theorem report_to_proto_is_read_under_member_names s now data k j now' :
  isValidGpsData data = Some true →
  untouched (deviceData s) k →
  k ≠ "__proto__" →
  telemetry_record now data !! k = Some j →
  truthy (VJson j) = true →
  (handle now' (GetData k) (handle now (PostData "__proto__" data) s).2).1
  = Response 200 (VJson j).
Proof.
  intros Hv (Hown & Hownp & Hproto) Hk Hj Htruthy. simpl.
  rewrite post_data_valid by done. rewrite get_data_response. simpl.
  assert (reaches_proto_setter (deviceData s) "__proto__" = true) as Hset.
  { unfold reaches_proto_setter. rewrite Hownp, Hproto. done. }
  unfold table_set. rewrite Hset. unfold table_get. simpl.
  by rewrite Hown, Hj, Htruthy.
Qed.

Lemma report_to_proto_is_read_under_member_names_witness :
  isValidGpsData example_body = Some true
  ∧ untouched (deviceData (init 0)) "latitude"
  ∧ "latitude" ≠ "__proto__"
  ∧ telemetry_record 1 example_body !! "latitude" = Some (JNum (146 # 10))
  ∧ truthy (VJson (JNum (146 # 10))) = true
  ∧ (handle 2 (GetData "latitude")
       (handle 1 (PostData "__proto__" example_body) (init 0)).2).1
    = Response 200 (VJson (JNum (146 # 10))).
Proof.
  assert (isValidGpsData example_body = Some true) as Hv by reflexivity.
  assert (untouched (deviceData (init 0)) "latitude") as Hu.
  { by apply init_untouched_data. }
  assert ("latitude" ≠ "__proto__") as Hk by discriminate.
  assert (telemetry_record 1 example_body !! "latitude"
          = Some (JNum (146 # 10))) as Hj by reflexivity.
  assert (truthy (VJson (JNum (146 # 10))) = true) as Ht by reflexivity.
  split; [exact Hv|]. split; [exact Hu|]. split; [exact Hk|].
  split; [exact Hj|]. split; [exact Ht|].
  exact (report_to_proto_is_read_under_member_names (init 0) 1 example_body
           "latitude" _ 2 Hv Hu Hk Hj Ht).
Defined.

(** *** Witness for the status of a parsed report *)

Lemma post_data_status_parsed_witness :
  abc_body ≠ BUndefined
  ∧ status (handle 1 (PostData "dev1" abc_body) (init 0)).1 = 400
  ∧ (handle 1 (PostData "dev1" abc_body) (init 0)).2 = init 0.
Proof.
  assert (abc_body ≠ BUndefined) as H by discriminate.
  split; [exact H|].
  destruct (post_data_status_parsed 1 "dev1" abc_body (init 0) H)
    as (_ & _ & Hsame & Habc).
  split; [exact Habc|exact (Hsame Habc)].
Defined.
